(** * The wallet sandbox pages: a model of their handlers

    The repository holds two copies of one React page that exercises an
    injected Solana wallet: [src/src/App.tsx] (legacy transactions only,
    titled Phantom Sandbox) and a second [App.tsx] (legacy and version-0
    transactions, titled Brave Wallet Sandbox).  Every handler of the page
    is a short asynchronous function: it reads React state, calls the
    wallet or the RPC connection, awaits the answer inside a [try]/[catch]
    and appends lines to the on-screen log.

    The handlers are embedded as finite trees of primitive steps ([Prog]);
    an interpreter ([run]) executes a tree against an environment that
    decides how every external call settles.  The interpreter keeps the
    React state of the component and a trace of what happened, in order.

    One handler runs at a time, from its first step to its last: what the
    user or the wallet does while a handler is suspended is not part of the
    model.  Output to the console ([console.warn], [console.log]) is left
    out, as it changes nothing the page keeps. *)

From Stdlib Require Import String Ascii List Bool Arith NArith ZArith Lia.
Import ListNotations.
Local Open Scope string_scope.
Local Open Scope list_scope.

Set Implicit Arguments.

(** ** Values *)

Definition bytes := list Byte.byte.

(** A [PublicKey] is determined by its base-58 text
    ([new PublicKey(text)], [key.toBase58()]). *)
Record PublicKey : Type := new_PublicKey { toBase58 : string }.

Definition Blockhash := string.
Definition TransactionSignature := string.

(** [Commitment] is a union of string literals in the SDK. *)
Definition Commitment := string.

(** [Cluster] is the union ["devnet" | "testnet" | "mainnet-beta"]. *)
Inductive Cluster : Type := devnet | testnet | mainnet_beta.

Definition cluster_name (c : Cluster) : string :=
  match c with
  | devnet => "devnet"
  | testnet => "testnet"
  | mainnet_beta => "mainnet-beta"
  end.

Definition Cluster_eqb (a b : Cluster) : bool :=
  match a, b with
  | devnet, devnet | testnet, testnet | mainnet_beta, mainnet_beta => true
  | _, _ => false
  end.

Inductive DisplayEncoding : Type := utf8 | hex.

Record ConnectOpts : Type := { onlyIfTrusted : bool }.

(** The two instructions the page builds. *)
Inductive TransactionInstruction : Type :=
| SystemProgram_transfer (fromPubkey toPubkey : PublicKey) (lamports : N)
| createTransferInstruction (source destination owner : PublicKey) (amount : N).

(** A legacy [Transaction]: [new Transaction()] has no instruction, no fee
    payer and no block hash. *)
Record Transaction : Type := {
  instructions : list TransactionInstruction;
  feePayer : option PublicKey;
  recentBlockhash : option Blockhash
}.

Definition new_Transaction : Transaction :=
  {| instructions := []; feePayer := None; recentBlockhash := None |}.

Definition add (t : Transaction) (i : TransactionInstruction) : Transaction :=
  {| instructions := instructions t ++ [i];
     feePayer := feePayer t;
     recentBlockhash := recentBlockhash t |}.

Definition set_feePayer (t : Transaction) (k : PublicKey) : Transaction :=
  {| instructions := instructions t;
     feePayer := Some k;
     recentBlockhash := recentBlockhash t |}.

Definition set_recentBlockhash (t : Transaction) (h : Blockhash) : Transaction :=
  {| instructions := instructions t;
     feePayer := feePayer t;
     recentBlockhash := Some h |}.

(** What [connection.getAddressLookupTable(address)] yields in [res.value]
    when the table exists. *)
Record AddressLookupTableAccount : Type := {
  table_key : PublicKey;
  table_addresses : list PublicKey
}.

(** [new TransactionMessage({payerKey, recentBlockhash, instructions})]. *)
Record TransactionMessage : Type := {
  payerKey : PublicKey;
  message_recentBlockhash : Blockhash;
  message_instructions : list TransactionInstruction
}.

(** [message.compileToV0Message(tables)]: the compilation itself belongs to
    the SDK, so the compiled message is kept as what it was compiled from.
    The tables are [None] when the method is called without argument. *)
Record MessageV0 : Type := {
  compiled_from : TransactionMessage;
  compiled_against : option (list (option AddressLookupTableAccount))
}.

Definition compileToV0Message (m : TransactionMessage)
    (tables : option (list (option AddressLookupTableAccount))) : MessageV0 :=
  {| compiled_from := m; compiled_against := tables |}.

Record VersionedTransaction : Type := new_VersionedTransaction {
  message : MessageV0
}.

(** What a handler hands to the wallet for signing.  [BareInstruction] is
    the object the first page builds for a token transfer: the instruction
    returned by [createTransferInstruction], with a [recentBlockhash]
    property written onto it. *)
Inductive Payload : Type :=
| Legacy (t : Transaction)
| Versioned (t : VersionedTransaction)
| BareInstruction (i : TransactionInstruction) (blockhash : Blockhash).

Definition payload_feePayer (p : Payload) : option PublicKey :=
  match p with
  | Legacy t => feePayer t
  | Versioned t => Some (payerKey (compiled_from (message t)))
  | BareInstruction _ _ => None
  end.

Definition payload_recentBlockhash (p : Payload) : option Blockhash :=
  match p with
  | Legacy t => recentBlockhash t
  | Versioned t => Some (message_recentBlockhash (compiled_from (message t)))
  | BareInstruction _ h => Some h
  end.

Definition payload_instructions (p : Payload) : list TransactionInstruction :=
  match p with
  | Legacy t => instructions t
  | Versioned t => message_instructions (compiled_from (message t))
  | BareInstruction i _ => [i]
  end.

(** A transaction as the wallet returns it from a signing call. *)
Record SignedTransaction : Type := {
  signed_payload : Payload;
  signatures : list string
}.

(** An answer of the wallet that the page treats as untyped: it reads the
    [signature] property and prints the rest. *)
Record Answer : Type := {
  signature : TransactionSignature;
  other_fields : string
}.

(** What a rejected promise or a failing expression carries. *)
Inductive Err : Type :=
| Rejection (code : Z) (text : string)
| TypeError (text : string).

Definition err_message (e : Err) : string :=
  match e with
  | Rejection _ t => t
  | TypeError t => t
  end.

(** The second argument of [signAndSendTransaction]. *)
Record SendOptions : Type := {
  maxRetries : N;
  preflightCommitment : Commitment;
  skipPreflight : bool
}.

(** The [params] objects the page passes to [request]. *)
Inductive Params : Type :=
| no_params
| params_onlyIfTrusted (b : bool)
| params_message (encoded : string)
| params_message_option (encoded : string) (option : SendOptions)
| params_messages (encoded : list string)
| params_message_display (data : bytes) (display : option DisplayEncoding).

(** ** The component's state *)

Record Connection : Type := new_Connection { rpcEndpoint : string }.

Record World : Type := {
  logs : list string;
  cluster : Cluster;
  connection : Connection;
  connected : bool;
  publicKey : option PublicKey
}.

(** What [useState] hands out to change the state.  [setLogs] takes the
    function that computes the new log from the current one, which is the
    only way the page calls it. *)
Inductive Setter : Type :=
| setLogs (update : list string -> list string)
| setCluster (c : Cluster)
| setConnection (c : Connection)
| setConnected (b : bool)
| setPublicKey (k : option PublicKey).

Definition apply_setter (s : Setter) (w : World) : World :=
  match s with
  | setLogs update =>
      {| logs := update (logs w); cluster := cluster w;
         connection := connection w;
         connected := connected w; publicKey := publicKey w |}
  | setCluster c =>
      {| logs := logs w; cluster := c; connection := connection w;
         connected := connected w; publicKey := publicKey w |}
  | setConnection c =>
      {| logs := logs w; cluster := cluster w; connection := c;
         connected := connected w; publicKey := publicKey w |}
  | setConnected b =>
      {| logs := logs w; cluster := cluster w; connection := connection w;
         connected := b; publicKey := publicKey w |}
  | setPublicKey k =>
      {| logs := logs w; cluster := cluster w; connection := connection w;
         connected := connected w; publicKey := k |}
  end.

(** [addLog(log)] is [setLogs((logs) => [...logs, "> " + log])]. *)
Definition addLog (log : string) (w : World) : World :=
  apply_setter (setLogs (fun logs => logs ++ [("> " ++ log)%string])) w.

(** ** External calls

    Every call below returns a promise.  The first seven are methods of the
    injected wallet, the next five methods of the RPC [Connection], the last
    one a function of the token library. *)
Inductive Call : Type :=
| provider_connect (opts : option ConnectOpts)
| provider_disconnect
| provider_signTransaction (transaction : option Payload)
| provider_signAllTransactions (transactions : list Payload)
| provider_signMessage (data : bytes) (display : option DisplayEncoding)
| provider_signAndSendTransaction (transaction : Payload) (options : SendOptions)
| provider_request (method : string) (params : Params)
| connection_getRecentBlockhash (conn : Connection) (commitment : Commitment)
| connection_getLatestBlockhash (conn : Connection)
| connection_getAddressLookupTable (conn : Connection) (address : PublicKey)
| connection_sendRawTransaction (conn : Connection) (raw : bytes)
| connection_confirmTransaction (conn : Connection) (sig : TransactionSignature)
| getAssociatedTokenAddress (mint owner : PublicKey).

(** The type of the value a call's promise is fulfilled with. *)
Definition Resp (c : Call) : Type :=
  match c with
  | provider_connect _ => PublicKey
  | provider_disconnect => unit
  | provider_signTransaction _ => SignedTransaction
  | provider_signAllTransactions _ => list SignedTransaction
  | provider_signMessage _ _ => Answer
  | provider_signAndSendTransaction _ _ => Answer
  | provider_request _ _ => Answer
  | connection_getRecentBlockhash _ _ => Blockhash
  | connection_getLatestBlockhash _ => Blockhash
  | connection_getAddressLookupTable _ _ => option AddressLookupTableAccount
  | connection_sendRawTransaction _ _ => TransactionSignature
  | connection_confirmTransaction _ _ => unit
  | getAssociatedTokenAddress _ _ => PublicKey
  end.

Definition is_provider_call (c : Call) : bool :=
  match c with
  | provider_connect _ | provider_disconnect | provider_signTransaction _
  | provider_signAllTransactions _ | provider_signMessage _ _
  | provider_signAndSendTransaction _ _ | provider_request _ _ => true
  | _ => false
  end.

Inductive Settled (A : Type) : Type :=
| Fulfilled (a : A)
| Rejected (e : Err).
Arguments Fulfilled {A} a.
Arguments Rejected {A} e.

(** ** Programs

    A handler is a tree of steps.  [Read] gives the React state as the
    handler sees it, [ProviderPublicKey] the [publicKey] property of the
    wallet object, [AddLog] is a call of [addLog] and [SetState] a call of
    one of the other state setters.  A call is split in two: [Issue] sends
    it (the wallet or the node sees it at once) and yields its number;
    [Wait] suspends until the promise of that number settles.  Between the
    two, other asynchronous functions of the same handler may run, which is
    what [Promise.all] relies on.  [ArrivesFirst n m] asks which of two
    pending promises settles first.  [Spawn t k] leaves [t] running on its
    own while [k] goes on: it is what becomes of the other members of a
    [Promise.all] once one member has rejected. *)
Inductive Prog (A : Type) : Type :=
| Ret (a : A)
| Throw (e : Err)
| Read (k : World -> Prog A)
| ProviderPublicKey (k : option PublicKey -> Prog A)
| AddLog (log : string) (k : Prog A)
| SetState (s : Setter) (k : Prog A)
| Issue (c : Call) (k : nat -> Prog A)
| Wait (n : nat) (c : Call) (k : Settled (Resp c) -> Prog A)
| ArrivesFirst (n m : nat) (k : bool -> Prog A)
| Spawn (t : Prog unit) (k : Prog A).
Arguments Ret {A} a.
Arguments Throw {A} e.
Arguments Read {A} k.
Arguments ProviderPublicKey {A} k.
Arguments AddLog {A} log k.
Arguments SetState {A} s k.
Arguments Issue {A} c k.
Arguments Wait {A} n c k.
Arguments ArrivesFirst {A} n m k.
Arguments Spawn {A} t k.

Fixpoint bind {A B : Type} (p : Prog A) (f : A -> Prog B) : Prog B :=
  match p with
  | Ret a => f a
  | Throw e => Throw e
  | Read k => Read (fun w => bind (k w) f)
  | ProviderPublicKey k => ProviderPublicKey (fun v => bind (k v) f)
  | AddLog s k => AddLog s (bind k f)
  | SetState s k => SetState s (bind k f)
  | Issue c k => Issue c (fun n => bind (k n) f)
  | Wait n c k => Wait n c (fun r => bind (k r) f)
  | ArrivesFirst n m k => ArrivesFirst n m (fun b => bind (k b) f)
  | Spawn t k => Spawn t (bind k f)
  end.

Declare Scope prog_scope.
Delimit Scope prog_scope with prog.
Notation "x <- p ;; q" := (bind p (fun x => q))
  (at level 61, p at next level, right associativity) : prog_scope.
Notation "p ;; q" := (bind p (fun _ => q))
  (at level 61, right associativity) : prog_scope.
Local Open Scope prog_scope.

(** [try { p } catch (err) { h err }].  A task left behind by [Spawn] is
    outside the [try]: nothing catches what it throws. *)
Fixpoint try_catch {A : Type} (p : Prog A) (h : Err -> Prog A) : Prog A :=
  match p with
  | Ret a => Ret a
  | Throw e => h e
  | Read k => Read (fun w => try_catch (k w) h)
  | ProviderPublicKey k => ProviderPublicKey (fun v => try_catch (k v) h)
  | AddLog s k => AddLog s (try_catch k h)
  | SetState s k => SetState s (try_catch k h)
  | Issue c k => Issue c (fun n => try_catch (k n) h)
  | Wait n c k => Wait n c (fun r => try_catch (k r) h)
  | ArrivesFirst n m k => ArrivesFirst n m (fun b => try_catch (k b) h)
  | Spawn t k => Spawn t (try_catch k h)
  end.

(** A task whose result nobody reads and whose rejection nobody handles. *)
Definition detached {A : Type} (p : Prog A) : Prog unit :=
  try_catch (p ;; Ret tt) (fun _ => Ret tt).

Definition settle_or_throw {A : Type} (r : Settled A) : Prog A :=
  match r with
  | Fulfilled a => Ret a
  | Rejected e => Throw e
  end.

(** [await call(...)]. *)
Definition await (c : Call) : Prog (Resp c) :=
  Issue c (fun n => Wait n c settle_or_throw).

Definition log (s : string) : Prog unit := AddLog s (Ret tt).
Definition set (s : Setter) : Prog unit := SetState s (Ret tt).
Definition provider_publicKey_now : Prog (option PublicKey) :=
  ProviderPublicKey (fun v => Ret v).
Definition read {A : Type} (f : World -> A) : Prog A :=
  Read (fun w => Ret (f w)).

(** [Promise.all([p, q])] for two asynchronous functions.  Calling [p]
    runs it up to its first suspension, then calling [q] does the same;
    from then on the member whose promise settles first is resumed.  The
    result rejects as soon as one member rejects, and the other member, if
    it is still waiting, goes on alone. *)
Fixpoint all2 {A B : Type} (p : Prog A) : Prog B -> Prog (A * B) :=
  match p with
  | Read k => fun q => Read (fun w => all2 (k w) q)
  | ProviderPublicKey k => fun q => ProviderPublicKey (fun v => all2 (k v) q)
  | AddLog s k => fun q => AddLog s (all2 k q)
  | SetState s k => fun q => SetState s (all2 k q)
  | Issue c k => fun q => Issue c (fun n => all2 (k n) q)
  | ArrivesFirst n m k => fun q => ArrivesFirst n m (fun b => all2 (k b) q)
  | Spawn t k => fun q => Spawn t (all2 k q)
  | Ret a =>
      fix on_right (q : Prog B) : Prog (A * B) :=
        match q with
        | Read k => Read (fun w => on_right (k w))
        | ProviderPublicKey k => ProviderPublicKey (fun v => on_right (k v))
        | AddLog s k => AddLog s (on_right k)
        | SetState s k => SetState s (on_right k)
        | Issue c k => Issue c (fun n => on_right (k n))
        | ArrivesFirst n m k => ArrivesFirst n m (fun b => on_right (k b))
        | Spawn t k => Spawn t (on_right k)
        | Ret b => Ret (a, b)
        | Throw e => Throw e
        | Wait n c k => Wait n c (fun r => on_right (k r))
        end
  | Throw e =>
      fix on_right (q : Prog B) : Prog (A * B) :=
        match q with
        | Read k => Read (fun w => on_right (k w))
        | ProviderPublicKey k => ProviderPublicKey (fun v => on_right (k v))
        | AddLog s k => AddLog s (on_right k)
        | SetState s k => SetState s (on_right k)
        | Issue c k => Issue c (fun n => on_right (k n))
        | ArrivesFirst n m k => ArrivesFirst n m (fun b => on_right (k b))
        | Spawn t k => Spawn t (on_right k)
        | Ret _ => Throw e
        | Throw _ => Throw e
        | Wait _ _ _ => Spawn (detached q) (Throw e)
        end
  | Wait n c k =>
      fix on_right (q : Prog B) : Prog (A * B) :=
        match q with
        | Read k' => Read (fun w => on_right (k' w))
        | ProviderPublicKey k' => ProviderPublicKey (fun v => on_right (k' v))
        | AddLog s k' => AddLog s (on_right k')
        | SetState s k' => SetState s (on_right k')
        | Issue c' k' => Issue c' (fun n' => on_right (k' n'))
        | ArrivesFirst n' m' k' => ArrivesFirst n' m' (fun b => on_right (k' b))
        | Spawn t k' => Spawn t (on_right k')
        | Ret _ => Wait n c (fun r => all2 (k r) q)
        | Throw e => Spawn (detached (Wait n c k)) (Throw e)
        | Wait n' c' k' =>
            ArrivesFirst n n'
              (fun left_first =>
                 if left_first
                 then Wait n c (fun r => all2 (k r) q)
                 else Wait n' c' (fun r => on_right (k' r)))
        end
  end.

(** [Promise.all(list)]. *)
Fixpoint Promise_all {A : Type} (ps : list (Prog A)) : Prog (list A) :=
  match ps with
  | [] => Ret []
  | p :: rest => xs <- all2 p (Promise_all rest) ;; Ret (fst xs :: snd xs)
  end.

(** ** Running a program *)

(** The environment of one run: the account the wallet reports in
    [provider.publicKey] (taken as fixed while a handler runs), how the call
    issued as number [n] settles, and which of two pending promises settles
    first. *)
Record Env : Type := {
  provider_publicKey : option PublicKey;
  settles : forall (n : nat) (c : Call), Settled (Resp c);
  arrives_first : nat -> nat -> bool
}.

(** What an observer sees, in order. *)
Inductive Event : Type :=
| Logged (entry : string)
| StateSet (s : Setter)
| Called (n : nat) (c : Call)
| Resolved (n : nat) (c : Call)
| Failed (n : nat) (c : Call) (e : Err).

Record Machine : Type := {
  world : World;
  trace : list Event;
  issued : nat
}.

Definition start (w : World) : Machine :=
  {| world := w; trace := []; issued := 0 |}.

Definition step_log (s : string) (m : Machine) : Machine :=
  {| world := addLog s (world m);
     trace := trace m ++ [Logged ("> " ++ s)%string];
     issued := issued m |}.

Definition step_set (s : Setter) (m : Machine) : Machine :=
  {| world := apply_setter s (world m);
     trace := trace m ++ [StateSet s];
     issued := issued m |}.

Definition step_issue (c : Call) (m : Machine) : Machine :=
  {| world := world m;
     trace := trace m ++ [Called (issued m) c];
     issued := S (issued m) |}.

Definition step_settle (n : nat) (c : Call) (r : Settled (Resp c))
    (m : Machine) : Machine :=
  {| world := world m;
     trace := trace m ++ [match r with
                          | Fulfilled _ => Resolved n c
                          | Rejected e => Failed n c e
                          end];
     issued := issued m |}.

(** A spawned task has nothing left to do before its pending promise
    settles, and the handlers of this page do nothing asynchronous once a
    [Promise.all] has rejected (only a synchronous [catch] block follows):
    the task therefore resumes after the rest of the handler. *)
Fixpoint run (env : Env) {A : Type} (p : Prog A) (m : Machine)
    : Settled A * Machine :=
  match p with
  | Ret a => (Fulfilled a, m)
  | Throw e => (Rejected e, m)
  | Read k => run env (k (world m)) m
  | ProviderPublicKey k => run env (k (provider_publicKey env)) m
  | AddLog s k => run env k (step_log s m)
  | SetState s k => run env k (step_set s m)
  | Issue c k => run env (k (issued m)) (step_issue c m)
  | Wait n c k =>
      let r := settles env n c in run env (k r) (step_settle n c r m)
  | ArrivesFirst n n' k => run env (k (arrives_first env n n')) m
  | Spawn t k =>
      let (r, m1) := run env k m in
      let (_, m2) := run env t m1 in
      (r, m2)
  end.

(** The page after a handler has run to the end from state [w]. *)
Definition after (env : Env) {A : Type} (p : Prog A) (w : World) : Machine :=
  snd (run env p (start w)).

Definition result (env : Env) {A : Type} (p : Prog A) (w : World) : Settled A :=
  fst (run env p (start w)).

Definition calls_of (tr : list Event) : list Call :=
  flat_map (fun ev => match ev with Called _ c => [c] | _ => [] end) tr.

Definition entries_of (tr : list Event) : list string :=
  flat_map (fun ev => match ev with Logged s => [s] | _ => [] end) tr.

(** ** What the page takes from its libraries

    Values the page prints with [JSON.stringify]. *)
Inductive JSValue : Type :=
| js_error (e : Err)
| js_payload (p : Payload)
| js_signed (t : SignedTransaction)
| js_signed_list (l : list SignedTransaction)
| js_text (s : string)
| js_text_list (l : list string)
| js_answer (a : Answer).

(** Pure functions of the SDK, of [bs58] and of the browser.  The page only
    composes them, so they are left open. *)
Record Library : Type := {
  clusterApiUrl : Cluster -> string;
  bs58_encode : bytes -> string;
  serializeMessage : Transaction -> bytes;
  message_serialize : MessageV0 -> bytes;
  serialize : SignedTransaction -> bytes;
  TextEncoder_encode : string -> bytes;
  JSON_stringify : JSValue -> string
}.

(** ** Detecting the wallet ([getProvider], the same text in both files) *)

Record InjectedWallet : Type := {
  isPhantom : bool;
  wallet_publicKey : option PublicKey;
  isConnected : option bool
}.

(** What the [solana] property of the window may hold: [undefined],
    [null], a value that is no object (on which any property reads as
    [undefined]), or an object. *)
Inductive Injected : Type :=
| holds_undefined
| holds_null
| holds_primitive
| holds_object (wallet : InjectedWallet).

(** The host: [solana] is [Some] when the property exists on [window]
    (["solana" in window]), with what it holds; [opened] lists the
    [window.open(url, target)] calls made so far. *)
Record Window : Type := {
  solana : option Injected;
  opened : list (string * string)
}.

(** How a synchronous function ends. *)
Inductive Outcome (A : Type) : Type :=
| Returned (a : A)
| Thrown (e : Err).
Arguments Returned {A} a.
Arguments Thrown {A} e.

Definition window_open (url target : string) (win : Window) : Window :=
  {| solana := solana win; opened := opened win ++ [(url, target)] |}.

(** [provider.isPhantom], as a condition: reading a property of
    [undefined] or [null] throws. *)
Definition read_isPhantom (provider : Injected) : Outcome bool :=
  match provider with
  | holds_undefined =>
      Thrown (TypeError "Cannot read properties of undefined (reading 'isPhantom')")
  | holds_null =>
      Thrown (TypeError "Cannot read properties of null (reading 'isPhantom')")
  | holds_primitive => Returned false
  | holds_object wallet => Returned (isPhantom wallet)
  end.

Definition getProvider (win : Window) : Outcome (option InjectedWallet) * Window :=
  let install := window_open "https://phantom.app/" "_blank" win in
  match solana win with
  | Some provider =>
      match read_isPhantom provider, provider with
      | Thrown e, _ => (Thrown e, win)
      | Returned true, holds_object wallet => (Returned (Some wallet), win)
      | Returned _, _ => (Returned None, install)
      end
  | None => (Returned None, install)
  end.

(** ** Building a legacy transfer ([createTransferTransaction], the same
    text in both files) *)

(** ["finalized" || "recent" || ...] is ["finalized"]. *)
Definition confimationLvl : Commitment := "finalized".

Definition createTransferTransaction : Prog (option Transaction) :=
  key <- provider_publicKey_now ;;
  match key with
  | None => Ret None
  | Some provider_key =>
      let transaction :=
        add new_Transaction
          (SystemProgram_transfer provider_key provider_key 100) in
      let transaction := set_feePayer transaction provider_key in
      log "Getting recent blockhash" ;;
      conn <- read connection ;;
      blockhash <- await (connection_getRecentBlockhash conn confimationLvl) ;;
      let transaction := set_recentBlockhash transaction blockhash in
      log ("blockhash: " ++ blockhash ++ " = " ++ confimationLvl) ;;
      Ret (Some transaction)
  end.

(** ** The session events and the effects (the same text in both files, but
    for the farewell sign, which the first file holds in a damaged
    encoding) *)

(** [publicKey?.toBase58()] inside a string concatenation. *)
Definition optional_toBase58 (k : option PublicKey) : string :=
  match k with
  | Some key => toBase58 key
  | None => "undefined"
  end.

Definition on_connect (key : option PublicKey) : Prog unit :=
  set (setPublicKey key) ;;
  set (setConnected true) ;;
  log ("[connect] " ++ optional_toBase58 key).

Definition on_disconnect (farewell : string) : Prog unit :=
  set (setPublicKey None) ;;
  set (setConnected false) ;;
  log ("[disconnect] " ++ farewell).

(** [provider.connect().then(...).catch(...)]: the handler does not wait
    for it; the two callbacks run when the promise settles. *)
Definition reconnect : Prog unit :=
  Issue (provider_connect None)
    (fun n =>
       Wait n (provider_connect None)
         (fun r =>
            match r with
            | Fulfilled _ => log "[accountChanged] Reconnected successfully"
            | Rejected err =>
                log ("[accountChanged] Failed to re-connect: " ++ err_message err)
            end)).

Definition on_accountChanged (key : option PublicKey) : Prog unit :=
  set (setPublicKey key) ;;
  match key with
  | Some k => log ("[accountChanged] Switched account to " ++ toBase58 k)
  | None => log "[accountChanged] Switched unknown account" ;; reconnect
  end.

(** The effect that depends on [provider]: the eager connection, whose
    rejection is dropped ([.catch((err) => {})]).  It also registers the
    three handlers above with [provider.on]. *)
Definition useEffect_provider (provider : option InjectedWallet) : Prog unit :=
  match provider with
  | None => Ret tt
  | Some _ =>
      let eager := provider_connect (Some {| onlyIfTrusted := true |}) in
      Issue eager (fun n => Wait n eager (fun _ => Ret tt))
  end.

(** Its cleanup: [provider.disconnect()], neither awaited nor caught. *)
Definition useEffect_provider_cleanup : Prog unit :=
  Issue provider_disconnect (fun n => Wait n provider_disconnect (fun _ => Ret tt)).

(** The effect that depends on [cluster]. *)
Definition useEffect_cluster : Prog unit :=
  c <- read cluster ;;
  log ("[cluster changed] " ++ cluster_name c).

(** React runs an effect again after a render in which one of its
    dependencies differs from the previous render. *)
Definition rerender (previous : Cluster) : Prog unit :=
  c <- read cluster ;;
  if Cluster_eqb previous c then Ret tt else useEffect_cluster.

Section Shared.
Variable lib : Library.

Definition error_log (label : string) (err : Err) : Prog unit :=
  log ("[error] " ++ label ++ ": " ++ JSON_stringify lib (js_error err)).

(** The [onChange] of the cluster selector. *)
Definition select_onChange (newCluster : Cluster) : Prog unit :=
  let newConnection := new_Connection (clusterApiUrl lib newCluster) in
  set (setConnection newConnection) ;;
  set (setCluster newCluster).

(** A change of selection as the page lives it: the [onChange] handler,
    then the render it causes. *)
Definition change_selection (newCluster : Cluster) : Prog unit :=
  previous <- read cluster ;;
  select_onChange newCluster ;;
  rerender previous.

(** The two buttons both files share. *)
Definition click_Disconnect : Prog unit :=
  try_catch (await provider_disconnect)
    (fun err => error_log "disconnect" err).

Definition click_Connect : Prog unit :=
  try_catch (await (provider_connect None) ;; Ret tt)
    (fun err => error_log "connect" err).
End Shared.

(** The fixed keys of the page. *)
Definition token_mint : PublicKey :=
  new_PublicKey "D3tynVS3dHGoShEZQcSbsJ69DnoWunhcgya35r5Dtn4p".
Definition token_recipient : PublicKey :=
  new_PublicKey "5ofLtZax45EhkNSkoBrDPdWNonKmijMTsW41ckzPs2r5".

(** A property read on [undefined]. *)
Definition undefined_has_no (property : string) : Err :=
  TypeError ("Cannot read properties of undefined (reading '" ++ property ++ "')").

Definition the_message_text : string :=
  "To avoid digital dognappers, sign below to authenticate with CryptoCorgis.".

(** ** The first page ([src/src/App.tsx]) *)
Module PhantomSandbox.
Section Page.
Variable lib : Library.

(** The farewell sign as the file spells it. *)
Definition farewell : string := "ðŸ‘‹".

Definition createSplTokenTransferTransaction : Prog (option Payload) :=
  key <- provider_publicKey_now ;;
  match key with
  | None => Ret None
  | Some provider_key =>
      from_token_account <- await (getAssociatedTokenAddress token_mint provider_key) ;;
      to_token_account <- await (getAssociatedTokenAddress token_mint token_recipient) ;;
      let tx :=
        createTransferInstruction from_token_account to_token_account
          provider_key 10000000 in
      conn <- read connection ;;
      blockhash <- await (connection_getRecentBlockhash conn "finalized") ;;
      log ("blockhash: " ++ blockhash ++ " = " ++ "finalized") ;;
      Ret (Some (BareInstruction tx blockhash))
  end.

Definition signAndSendTransaction : Prog unit :=
  try_catch
    (transaction <- createTransferTransaction ;;
     match transaction with
     | None => Ret tt
     | Some t =>
         answer <- await (provider_signAndSendTransaction (Legacy t)
                            {| maxRetries := 3;
                               preflightCommitment := "confirmed";
                               skipPreflight := false |}) ;;
         conn <- read connection ;;
         await (connection_confirmTransaction conn (signature answer)) ;;
         log ("Transaction " ++ signature answer ++ " confirmed")
     end)
    (fun err => error_log lib "sendTransaction" err).

Definition signAndSendSplTokenTransaction : Prog unit :=
  try_catch
    (transaction <- createSplTokenTransferTransaction ;;
     match transaction with
     | None => Ret tt
     | Some t =>
         log ("created tx:" ++ JSON_stringify lib (js_payload t)) ;;
         answer <- await (provider_signAndSendTransaction t
                            {| maxRetries := 3;
                               preflightCommitment := "finalized";
                               skipPreflight := false |}) ;;
         conn <- read connection ;;
         await (connection_confirmTransaction conn (signature answer)) ;;
         log ("Transaction " ++ signature answer ++ " confirmed")
     end)
    (fun err => error_log lib "sendTransaction" err).

Definition signSingleTransction : Prog unit :=
  try_catch
    (transaction <- createTransferTransaction ;;
     tx <- await (provider_signTransaction (option_map Legacy transaction)) ;;
     log ("signTransaction: " ++ JSON_stringify lib (js_signed tx)) ;;
     conn <- read connection ;;
     sig <- await (connection_sendRawTransaction conn (serialize lib tx)) ;;
     log ("signature: " ++ JSON_stringify lib (js_text sig)))
    (fun err => error_log lib "signSingleTransction" err).

Definition signSingleTransctionRequest : Prog unit :=
  try_catch
    (transaction <- createTransferTransaction ;;
     match transaction with
     | None => Throw (undefined_has_no "serializeMessage")
     | Some t =>
         tx <- await (provider_request "signTransaction"
                        (params_message (bs58_encode lib (serializeMessage lib t)))) ;;
         log ("signTransaction: " ++ JSON_stringify lib (js_answer tx)) ;;
         log ("signature: " ++ JSON_stringify lib (js_text (signature tx)))
     end)
    (fun err => error_log lib "signSingleTransction" err).

Definition send_each (conn : Connection) (txns : list SignedTransaction)
    : Prog (list TransactionSignature) :=
  Promise_all
    (map (fun tx =>
            (await (connection_sendRawTransaction conn (serialize lib tx)))
            : Prog TransactionSignature)
       txns).

Definition signMultipleTransactions (onlyFirst : bool) : Prog unit :=
  try_catch
    (built <- all2 createTransferTransaction createTransferTransaction ;;
     match built with
     | (Some transaction1, Some transaction2) =>
         txns <- (if onlyFirst
                  then await (provider_signAllTransactions [Legacy transaction1])
                  else await (provider_signAllTransactions
                                [Legacy transaction1; Legacy transaction2])) ;;
         log ("signMultipleTransactions txns: "
              ++ JSON_stringify lib (js_signed_list txns)) ;;
         conn <- read connection ;;
         sentTxs <- send_each conn txns ;;
         log ("sent raw txns: " ++ JSON_stringify lib (js_text_list sentTxs))
     | _ => Ret tt
     end)
    (fun err => error_log lib "signMultipleTransactions" err).

Definition signMessage (text : string) : Prog unit :=
  try_catch
    (let data := TextEncoder_encode lib text in
     res <- await (provider_signMessage data None) ;;
     log ("Message signed " ++ JSON_stringify lib (js_answer res)))
    (fun err => error_log lib "signMessage" err).

(** Everything the page can do: its buttons, its selector, the events
    the wallet pushes, and the two effects. *)
Inductive Operation : Type :=
| click_signAndSendTransaction
| click_signAndSendSplTokenTransaction
| click_signSingleTransction
| click_signSingleTransctionRequest
| click_signMultipleTransactions (onlyFirst : bool)
| click_signMessage
| click_disconnect
| click_connect
| select_cluster (newCluster : Cluster)
| event_connect (key : option PublicKey)
| event_disconnect
| event_accountChanged (key : option PublicKey)
| mount_cluster
| mount_provider (provider : option InjectedWallet)
| unmount_provider.

Definition handler (op : Operation) : Prog unit :=
  match op with
  | click_signAndSendTransaction => signAndSendTransaction
  | click_signAndSendSplTokenTransaction => signAndSendSplTokenTransaction
  | click_signSingleTransction => signSingleTransction
  | click_signSingleTransctionRequest => signSingleTransctionRequest
  | click_signMultipleTransactions onlyFirst => signMultipleTransactions onlyFirst
  | click_signMessage => signMessage the_message_text
  | click_disconnect => click_Disconnect lib
  | click_connect => click_Connect lib
  | select_cluster newCluster => change_selection lib newCluster
  | event_connect key => on_connect key
  | event_disconnect => on_disconnect farewell
  | event_accountChanged key => on_accountChanged key
  | mount_cluster => useEffect_cluster
  | mount_provider provider => useEffect_provider provider
  | unmount_provider => useEffect_provider_cleanup
  end.

(** The operations that are a button with its own [try]/[catch]. *)
Definition is_button (op : Operation) : bool :=
  match op with
  | click_signAndSendTransaction | click_signAndSendSplTokenTransaction
  | click_signSingleTransction | click_signSingleTransctionRequest
  | click_signMultipleTransactions _ | click_signMessage
  | click_disconnect | click_connect => true
  | _ => false
  end.
End Page.
End PhantomSandbox.

(** ** The second page (the [App.tsx] with version-0 transactions) *)
Module BraveWalletSandbox.
Section Page.
Variable lib : Library.

Definition farewell : string := "👋".

Definition kTestToPublicKeyInTableLookup : PublicKey :=
  new_PublicKey "Ed8JG8SuyLgG6A9Km3PSKtVD8a4Xoqr6cATfswZKbQCW".

(** The table published on devnet that the handlers name. *)
Definition lookupTableAddress : PublicKey :=
  new_PublicKey "CE7eEn3x97iC1qRZPvpJJk2AuPzwchQ6RHSy6f1U1jxu".

Definition createSplTokenTransferTransaction : Prog (option Transaction) :=
  key <- provider_publicKey_now ;;
  match key with
  | None => Ret None
  | Some provider_key =>
      from_token_account <- await (getAssociatedTokenAddress token_mint provider_key) ;;
      to_token_account <- await (getAssociatedTokenAddress token_mint token_recipient) ;;
      let ins :=
        createTransferInstruction from_token_account to_token_account
          provider_key 10000000 in
      let tx := add new_Transaction ins in
      let tx := set_feePayer tx provider_key in
      conn <- read connection ;;
      blockhash <- await (connection_getRecentBlockhash conn "finalized") ;;
      let tx := set_recentBlockhash tx blockhash in
      log ("blockhash: " ++ blockhash ++ " = " ++ "finalized") ;;
      Ret (Some tx)
  end.

Definition createTransferTransactionV0 : Prog (option VersionedTransaction) :=
  key <- provider_publicKey_now ;;
  match key with
  | None => Ret None
  | Some provider_key =>
      conn <- read connection ;;
      blockhash <- await (connection_getLatestBlockhash conn) ;;
      let instructions :=
        [SystemProgram_transfer provider_key provider_key 100] in
      let messageV0 :=
        compileToV0Message
          {| payerKey := provider_key;
             message_recentBlockhash := blockhash;
             message_instructions := instructions |}
          None in
      Ret (Some (new_VersionedTransaction messageV0))
  end.

Definition callSignAndSendTransaction (transaction : Payload)
    (commitment : Commitment) : Prog TransactionSignature :=
  answer <- await (provider_signAndSendTransaction transaction
                     {| maxRetries := 3;
                        preflightCommitment := commitment;
                        skipPreflight := false |}) ;;
  conn <- read connection ;;
  await (connection_confirmTransaction conn (signature answer)) ;;
  log ("Transaction " ++ signature answer ++ " confirmed") ;;
  Ret (signature answer).

Definition createTransferTransactionV0WithLookupTable (address : PublicKey)
    : Prog (option VersionedTransaction) :=
  key <- provider_publicKey_now ;;
  match key with
  | None => Ret None
  | Some provider_key =>
      conn <- read connection ;;
      lookupTableAccount <- await (connection_getAddressLookupTable conn address) ;;
      blockhash <- await (connection_getLatestBlockhash conn) ;;
      let instructions :=
        [SystemProgram_transfer provider_key kTestToPublicKeyInTableLookup 100] in
      let messageV0 :=
        compileToV0Message
          {| payerKey := provider_key;
             message_recentBlockhash := blockhash;
             message_instructions := instructions |}
          (Some [lookupTableAccount]) in
      Ret (Some (new_VersionedTransaction messageV0))
  end.

Definition signAndSendTransaction : Prog unit :=
  try_catch
    (transaction <- createTransferTransaction ;;
     match transaction with
     | None => Ret tt
     | Some t => callSignAndSendTransaction (Legacy t) "finalized" ;; Ret tt
     end)
    (fun err => error_log lib "sendTransaction" err).

Definition signAndSendTransactionV0 : Prog unit :=
  try_catch
    (transactionV0 <- createTransferTransactionV0 ;;
     match transactionV0 with
     | None => Ret tt
     | Some t => callSignAndSendTransaction (Versioned t) "finalized" ;; Ret tt
     end)
    (fun err => error_log lib "sendTransaction" err).

Definition signAndSendTransactionV0WithLookupTable : Prog unit :=
  try_catch
    (transactionV0 <- createTransferTransactionV0WithLookupTable lookupTableAddress ;;
     match transactionV0 with
     | None => Ret tt
     | Some t => callSignAndSendTransaction (Versioned t) "finalized" ;; Ret tt
     end)
    (fun err => error_log lib "sendTransaction" err).

Definition signAndSendTransactionRequest : Prog unit :=
  try_catch
    (transaction <- createTransferTransaction ;;
     match transaction with
     | None => Ret tt
     | Some t =>
         answer <- await (provider_request "signAndSendTransaction"
                            (params_message_option
                               (bs58_encode lib (serializeMessage lib t))
                               {| maxRetries := 3;
                                  preflightCommitment := "confirmed";
                                  skipPreflight := false |})) ;;
         conn <- read connection ;;
         await (connection_confirmTransaction conn (signature answer)) ;;
         log ("Transaction " ++ signature answer ++ " confirmed")
     end)
    (fun err => error_log lib "sendTransaction" err).

Definition signAndSendSplTokenTransaction : Prog unit :=
  try_catch
    (transaction <- createSplTokenTransferTransaction ;;
     match transaction with
     | None => Ret tt
     | Some t =>
         log ("created tx:" ++ JSON_stringify lib (js_payload (Legacy t))) ;;
         answer <- await (provider_signAndSendTransaction (Legacy t)
                            {| maxRetries := 3;
                               preflightCommitment := "finalized";
                               skipPreflight := false |}) ;;
         conn <- read connection ;;
         await (connection_confirmTransaction conn (signature answer)) ;;
         log ("Transaction " ++ signature answer ++ " confirmed")
     end)
    (fun err => error_log lib "sendTransaction" err).

(** The builder a handler picks from its [v0] and [lookupTable] flags. *)
Definition build (v0 lookupTable : bool) : Prog (option Payload) :=
  if v0 && lookupTable
  then t <- createTransferTransactionV0WithLookupTable lookupTableAddress ;;
       Ret (option_map Versioned t)
  else if v0
  then t <- createTransferTransactionV0 ;; Ret (option_map Versioned t)
  else t <- createTransferTransaction ;; Ret (option_map Legacy t).

Definition signSingleTransaction (v0 lookupTable : bool) : Prog unit :=
  try_catch
    (transaction <- build v0 lookupTable ;;
     tx <- await (provider_signTransaction transaction) ;;
     log ("signTransaction: " ++ JSON_stringify lib (js_signed tx)) ;;
     conn <- read connection ;;
     sig <- await (connection_sendRawTransaction conn (serialize lib tx)) ;;
     log ("signature: " ++ JSON_stringify lib (js_text sig)))
    (fun err => error_log lib "signSingleTransaction" err).

(** [bs58.encode(transaction.message.serialize())] and
    [bs58.encode(transaction.serializeMessage())]; reading either
    property on [undefined] throws. *)
Definition encode_v0 (transaction : option VersionedTransaction) : Prog string :=
  match transaction with
  | None => Throw (undefined_has_no "message")
  | Some t => Ret (bs58_encode lib (message_serialize lib (message t)))
  end.

Definition encode_legacy (transaction : option Transaction) : Prog string :=
  match transaction with
  | None => Throw (undefined_has_no "serializeMessage")
  | Some t => Ret (bs58_encode lib (serializeMessage lib t))
  end.

Definition signSingleTransactionRequest (v0 : bool) : Prog unit :=
  try_catch
    (encoded <- (if v0
                 then transaction <- createTransferTransactionV0 ;;
                      encode_v0 transaction
                 else transaction <- createTransferTransaction ;;
                      encode_legacy transaction) ;;
     tx <- await (provider_request "signTransaction" (params_message encoded)) ;;
     log ("signTransaction: " ++ JSON_stringify lib (js_answer tx)))
    (fun err => error_log lib "signSingleTransaction" err).

Definition send_each (conn : Connection) (txns : list SignedTransaction)
    : Prog (list TransactionSignature) :=
  Promise_all
    (map (fun tx =>
            (await (connection_sendRawTransaction conn (serialize lib tx)))
            : Prog TransactionSignature)
       txns).

Definition signMultipleTransactions (onlyFirst v0 lookupTable : bool) : Prog unit :=
  try_catch
    (built <- all2 (build v0 lookupTable) (build v0 lookupTable) ;;
     match built with
     | (Some transaction1, Some transaction2) =>
         txns <- (if onlyFirst
                  then await (provider_signAllTransactions [transaction1])
                  else await (provider_signAllTransactions
                                [transaction1; transaction2])) ;;
         log ("signMultipleTransactions txns: "
              ++ JSON_stringify lib (js_signed_list txns)) ;;
         conn <- read connection ;;
         sentTxs <- send_each conn txns ;;
         log ("sent raw txns: " ++ JSON_stringify lib (js_text_list sentTxs))
     | _ => Ret tt
     end)
    (fun err => error_log lib "signMultipleTransactions" err).

(** The end of [signMultipleTransactionsRequest], once both payloads are
    built and encoded. *)
Definition request_signAllTransactions (onlyFirst : bool)
    (message1 message2 : string) : Prog unit :=
  txns <- (if onlyFirst
           then await (provider_request "signAllTransactions"
                         (params_messages [message1]))
           else await (provider_request "signAllTransactions"
                         (params_messages [message1; message2]))) ;;
  log ("signMultipleTransactions txns: " ++ JSON_stringify lib (js_answer txns)).

Definition signMultipleTransactionsRequest (onlyFirst v0 : bool) : Prog unit :=
  try_catch
    (if v0
     then built <- all2 createTransferTransactionV0 createTransferTransactionV0 ;;
          match built with
          | (Some transaction1, Some transaction2) =>
              request_signAllTransactions onlyFirst
                (bs58_encode lib (message_serialize lib (message transaction1)))
                (bs58_encode lib (message_serialize lib (message transaction2)))
          | _ => Ret tt
          end
     else built <- all2 createTransferTransaction createTransferTransaction ;;
          match built with
          | (Some transaction1, Some transaction2) =>
              request_signAllTransactions onlyFirst
                (bs58_encode lib (serializeMessage lib transaction1))
                (bs58_encode lib (serializeMessage lib transaction2))
          | _ => Ret tt
          end)
    (fun err => error_log lib "signMultipleTransactions" err).

Definition signMessage (text : string) (useHex : bool) : Prog unit :=
  try_catch
    (let data := TextEncoder_encode lib text in
     res <- (if negb useHex
             then await (provider_signMessage data None)
             else await (provider_signMessage data (Some hex))) ;;
     log ("Message signed " ++ JSON_stringify lib (js_answer res)))
    (fun err => error_log lib "signMessage" err).

Definition signMessageRequest (text : string) (useHex : bool) : Prog unit :=
  try_catch
    (let data := TextEncoder_encode lib text in
     res <- (if negb useHex
             then await (provider_request "signMessage"
                           (params_message_display data None))
             else await (provider_request "signMessage"
                           (params_message_display data (Some hex)))) ;;
     log ("Message signed " ++ JSON_stringify lib (js_answer res)))
    (fun err => error_log lib "signMessage" err).

(** The buttons this page adds to the two shared ones. *)
Definition click_Disconnect_Request : Prog unit :=
  try_catch (await (provider_request "disconnect" no_params) ;; Ret tt)
    (fun err => error_log lib "disconnect" err).

Definition click_Connect_Request : Prog unit :=
  try_catch (await (provider_request "connect" no_params) ;; Ret tt)
    (fun err => error_log lib "connect" err).

Definition click_Eagerly_Connect : Prog unit :=
  try_catch
    (await (provider_connect (Some {| onlyIfTrusted := true |})) ;; Ret tt)
    (fun err => error_log lib "eagerly connect" err).

Definition click_Eagerly_Connect_Request : Prog unit :=
  try_catch
    (await (provider_request "connect" (params_onlyIfTrusted true)) ;; Ret tt)
    (fun err => error_log lib "eagerly connect" err).

Inductive Operation : Type :=
| click_signAndSendTransaction
| click_signAndSendTransactionV0
| click_signAndSendTransactionV0WithLookupTable
| click_signAndSendTransactionRequest
| click_signAndSendSplTokenTransaction
| click_signSingleTransaction (v0 lookupTable : bool)
| click_signSingleTransactionRequest (v0 : bool)
| click_signMultipleTransactions (onlyFirst v0 lookupTable : bool)
| click_signMultipleTransactionsRequest (onlyFirst v0 : bool)
| click_signMessage (useHex : bool)
| click_signMessageRequest (useHex : bool)
| click_disconnect
| click_disconnect_request
| click_connect
| click_connect_request
| click_eagerly_connect
| click_eagerly_connect_request
| select_cluster (newCluster : Cluster)
| event_connect (key : option PublicKey)
| event_disconnect
| event_accountChanged (key : option PublicKey)
| mount_cluster
| mount_provider (provider : option InjectedWallet)
| unmount_provider.

Definition handler (op : Operation) : Prog unit :=
  match op with
  | click_signAndSendTransaction => signAndSendTransaction
  | click_signAndSendTransactionV0 => signAndSendTransactionV0
  | click_signAndSendTransactionV0WithLookupTable =>
      signAndSendTransactionV0WithLookupTable
  | click_signAndSendTransactionRequest => signAndSendTransactionRequest
  | click_signAndSendSplTokenTransaction => signAndSendSplTokenTransaction
  | click_signSingleTransaction v0 lookupTable =>
      signSingleTransaction v0 lookupTable
  | click_signSingleTransactionRequest v0 => signSingleTransactionRequest v0
  | click_signMultipleTransactions onlyFirst v0 lookupTable =>
      signMultipleTransactions onlyFirst v0 lookupTable
  | click_signMultipleTransactionsRequest onlyFirst v0 =>
      signMultipleTransactionsRequest onlyFirst v0
  | click_signMessage useHex => signMessage the_message_text useHex
  | click_signMessageRequest useHex => signMessageRequest the_message_text useHex
  | click_disconnect => click_Disconnect lib
  | click_disconnect_request => click_Disconnect_Request
  | click_connect => click_Connect lib
  | click_connect_request => click_Connect_Request
  | click_eagerly_connect => click_Eagerly_Connect
  | click_eagerly_connect_request => click_Eagerly_Connect_Request
  | select_cluster newCluster => change_selection lib newCluster
  | event_connect key => on_connect key
  | event_disconnect => on_disconnect farewell
  | event_accountChanged key => on_accountChanged key
  | mount_cluster => useEffect_cluster
  | mount_provider provider => useEffect_provider provider
  | unmount_provider => useEffect_provider_cleanup
  end.

Definition is_button (op : Operation) : bool :=
  match op with
  | select_cluster _ | event_connect _ | event_disconnect
  | event_accountChanged _ | mount_cluster | mount_provider _
  | unmount_provider => false
  | _ => true
  end.
End Page.
End BraveWalletSandbox.

(** * Observing a run *)

(** An entry as [addLog] writes it. *)
Definition appended_by_addLog (entry : string) : Prop :=
  exists text, entry = ("> " ++ text)%string.

(** ** Programs whose steps stay within given bounds *)

Section Bounds.
Variable call_ok : Call -> Prop.
Variable setter_ok : Setter -> Prop.

Inductive steps_in : forall A : Type, Prog A -> Prop :=
| in_Ret A (a : A) : steps_in (Ret a)
| in_Throw A e : steps_in (@Throw A e)
| in_Read A (k : World -> Prog A) :
    (forall w, steps_in (k w)) -> steps_in (Read k)
| in_ProviderPublicKey A (k : option PublicKey -> Prog A) :
    (forall v, steps_in (k v)) -> steps_in (ProviderPublicKey k)
| in_AddLog A s (k : Prog A) : steps_in k -> steps_in (AddLog s k)
| in_SetState A s (k : Prog A) :
    setter_ok s -> steps_in k -> steps_in (SetState s k)
| in_Issue A c (k : nat -> Prog A) :
    call_ok c -> (forall n, steps_in (k n)) -> steps_in (Issue c k)
| in_Wait A n c (k : Settled (Resp c) -> Prog A) :
    call_ok c -> (forall r, steps_in (k r)) -> steps_in (Wait n c k)
| in_ArrivesFirst A n m (k : bool -> Prog A) :
    (forall b, steps_in (k b)) -> steps_in (ArrivesFirst n m k)
| in_Spawn A t (k : Prog A) :
    steps_in t -> steps_in k -> steps_in (Spawn t k).

Definition event_ok (ev : Event) : Prop :=
  match ev with
  | Logged _ => True
  | StateSet s => setter_ok s
  | Called _ c | Resolved _ c | Failed _ c _ => call_ok c
  end.

End Bounds.

(** The bounds used below: calls that do not reach the wallet, any call,
    any setter, no setter. *)
Definition not_provider (c : Call) : Prop := is_provider_call c = false.
Definition any_call (c : Call) : Prop := True.
Definition any_setter (s : Setter) : Prop := True.
Definition no_setter (s : Setter) : Prop := False.

(** Any setter but [setLogs]. *)
Definition not_setLogs (s : Setter) : Prop :=
  match s with
  | setLogs _ => False
  | _ => True
  end.

(** The events that follow the first rejected wallet call of a trace, with
    the error it rejected with. *)
Fixpoint after_rejection (tr : list Event) : option (Err * list Event) :=
  match tr with
  | [] => None
  | Failed _ c e :: rest =>
      if is_provider_call c then Some (e, rest) else after_rejection rest
  | _ :: rest => after_rejection rest
  end.

(** The calls of a trace that went to the wallet, and those that went to
    the node or the token library. *)
Definition provider_calls (tr : list Event) : list Call :=
  filter is_provider_call (calls_of tr).

Definition rpc_calls (tr : list Event) : list Call :=
  filter (fun c => negb (is_provider_call c)) (calls_of tr).

(** The capability a wallet call asks for, whichever way it is called. *)
Definition method_of (c : Call) : option string :=
  match c with
  | provider_connect _ => Some "connect"
  | provider_disconnect => Some "disconnect"
  | provider_signTransaction _ => Some "signTransaction"
  | provider_signAllTransactions _ => Some "signAllTransactions"
  | provider_signMessage _ _ => Some "signMessage"
  | provider_signAndSendTransaction _ _ => Some "signAndSendTransaction"
  | provider_request m _ => Some m
  | _ => None
  end.

(** The send options a wallet call carries. *)
Definition options_of (c : Call) : option SendOptions :=
  match c with
  | provider_signAndSendTransaction _ o => Some o
  | provider_request _ (params_message_option _ o) => Some o
  | _ => None
  end.

(** The transaction [createTransferTransaction] returns for account [key]
    and block hash [h]. *)
Definition transfer_to_self (key : PublicKey) (h : Blockhash) : Transaction :=
  set_recentBlockhash
    (set_feePayer
       (add new_Transaction (SystemProgram_transfer key key 100)) key) h.

(** The payloads a call hands to the wallet for signing. *)
Definition payloads_of (c : Call) : list Payload :=
  match c with
  | provider_signTransaction (Some p) => [p]
  | provider_signAllTransactions ps => ps
  | provider_signAndSendTransaction p _ => [p]
  | _ => []
  end.

(** A payload with a fee payer and a recent block hash. *)
Definition carries_payer_and_blockhash (p : Payload) : Prop :=
  payload_feePayer p <> None /\ payload_recentBlockhash p <> None.


(** The identity is known exactly when the page holds itself connected. *)
Definition session_invariant (w : World) : Prop :=
  publicKey w <> None <-> connected w = true.

(** After the first rejected wallet call, exactly one entry is logged and it
    is marked as an error. *)
Definition logged_once_as_error (tr : list Event) : Prop :=
  match after_rejection tr with
  | None => True
  | Some (_, rest) =>
      exists entry, rest = [Logged entry] /\ prefix "> [error] " entry = true
  end.

(** The session of [m] is the session of [w]. *)
Definition session_kept (w : World) (m : Machine) : Prop :=
  connected (world m) = connected w /\ publicKey (world m) = publicKey w.

(** The payload lists handed to [signAllTransactions], call by call. *)
Definition batches (tr : list Event) : list (list Payload) :=
  flat_map (fun c => match c with
                     | provider_signAllTransactions ts => [ts]
                     | _ => []
                     end)
    (provider_calls tr).
Arguments batches : simpl never.

(** For each [signAllTransactions] call of a trace: how many payloads were
    asked, and how many signed ones came back. *)
Definition batch_sizes (env : Env) (tr : list Event)
    : list (nat * option nat) :=
  flat_map
    (fun ev =>
       match ev with
       | Called n (provider_signAllTransactions ts) =>
           [(length ts,
             match settles env n (provider_signAllTransactions ts) with
             | Fulfilled signed => Some (length signed)
             | Rejected _ => None
             end)]
       | _ => []
       end)
    tr.

(** Every batch asks for [expected] payloads and gets as many back. *)
Definition batch_answered_in_kind (env : Env) (tr : list Event)
    (expected : nat) : Prop :=
  forall asked answered,
    In (asked, Some answered) (batch_sizes env tr) ->
    asked = expected /\ answered = expected.

(** * Concrete surroundings, for examples *)

Definition sample_library : Library :=
  {| clusterApiUrl := fun c => ("https://api." ++ cluster_name c ++ ".solana.com")%string;
     bs58_encode := fun _ => "3yZe7d";
     serializeMessage := fun _ => [];
     message_serialize := fun _ => [];
     serialize := fun _ => [];
     TextEncoder_encode := fun _ => [];
     JSON_stringify := fun _ => "{}" |}.

Definition sample_key : PublicKey :=
  new_PublicKey "4Nd1mYvKZQxXo1J8mBo9nT7yYc3iXKjWZ7p5sU5vxT2h".

Definition sign_with_wallet (p : Payload) : SignedTransaction :=
  {| signed_payload := p; signatures := ["5VERv8NMvzbJMEkV8xnrLkEaWRtSz9CosKDYjCJjBRnb"] |}.

Definition sample_answer : Answer :=
  {| signature := "5VERv8NMvzbJMEkV8xnrLkEaWRtSz9CosKDYjCJjBRnb";
     other_fields := "" |}.

(** A wallet and a node that grant everything. *)
Definition granted (c : Call) : Resp c :=
  match c with
  | provider_connect _ => sample_key
  | provider_disconnect => tt
  | provider_signTransaction t =>
      sign_with_wallet
        (match t with Some p => p | None => Legacy new_Transaction end)
  | provider_signAllTransactions ts => map sign_with_wallet ts
  | provider_signMessage _ _ => sample_answer
  | provider_signAndSendTransaction _ _ => sample_answer
  | provider_request _ _ => sample_answer
  | connection_getRecentBlockhash _ _ => "EkSnNWid2cvwEVnVx9aBqawnmiCNiDgp3gUdkDPTKN1N"
  | connection_getLatestBlockhash _ => "EkSnNWid2cvwEVnVx9aBqawnmiCNiDgp3gUdkDPTKN1N"
  | connection_getAddressLookupTable _ _ => None
  | connection_sendRawTransaction _ _ => "5VERv8NMvzbJMEkV8xnrLkEaWRtSz9CosKDYjCJjBRnb"
  | connection_confirmTransaction _ _ => tt
  | getAssociatedTokenAddress _ owner => owner
  end.

Definition user_rejected : Err := Rejection 4001%Z "User rejected the request.".

Definition willing_env : Env :=
  {| provider_publicKey := Some sample_key;
     settles := fun _ c => Fulfilled (granted c);
     arrives_first := fun _ _ => true |}.

(** The wallet rejects whatever it is asked; the node answers. *)
Definition refusing_env : Env :=
  {| provider_publicKey := Some sample_key;
     settles := fun _ c =>
       if is_provider_call c then Rejected user_rejected else Fulfilled (granted c);
     arrives_first := fun _ _ => true |}.

(** No account is connected. *)
Definition locked_env : Env :=
  {| provider_publicKey := None;
     settles := fun _ c => Fulfilled (granted c);
     arrives_first := fun _ _ => true |}.

(** The wallet answers a batch of one with two signed transactions. *)
Definition generous_env : Env :=
  {| provider_publicKey := Some sample_key;
     settles := fun _ c =>
       match c return Settled (Resp c) with
       | provider_signAllTransactions ts =>
           Fulfilled (map sign_with_wallet (ts ++ ts))
       | c' => Fulfilled (granted c')
       end;
     arrives_first := fun _ _ => true |}.

(** The page as it is first rendered. *)
Definition first_render (lib : Library) : World :=
  {| logs := [];
     cluster := devnet;
     connection := new_Connection (clusterApiUrl lib devnet);
     connected := false;
     publicKey := None |}.

Definition phantom_wallet : InjectedWallet :=
  {| isPhantom := true; wallet_publicKey := None; isConnected := Some false |}.

(** * Further observations *)

Unset Implicit Arguments.

(** A program that issues the calls [cs], in this order, whatever the
    environment answers. *)
Inductive emits : list Call -> forall A : Type, Prog A -> Prop :=
| emits_Ret A (a : A) : emits [] A (Ret a)
| emits_Throw A e : emits [] A (Throw e)
| emits_Read cs A (k : World -> Prog A) :
    (forall w, emits cs A (k w)) -> emits cs A (Read k)
| emits_ProviderPublicKey cs A (k : option PublicKey -> Prog A) :
    (forall v, emits cs A (k v)) -> emits cs A (ProviderPublicKey k)
| emits_AddLog cs A s (k : Prog A) : emits cs A k -> emits cs A (AddLog s k)
| emits_SetState cs A s (k : Prog A) : emits cs A k -> emits cs A (SetState s k)
| emits_Issue cs A c (k : nat -> Prog A) :
    (forall n, emits cs A (k n)) -> emits (c :: cs) A (Issue c k)
| emits_Wait cs A n c (k : Settled (Resp c) -> Prog A) :
    (forall r, emits cs A (k r)) -> emits cs A (Wait n c k)
| emits_ArrivesFirst cs A n m (k : bool -> Prog A) :
    (forall b, emits cs A (k b)) -> emits cs A (ArrivesFirst n m k)
| emits_Spawn cs ct A t (k : Prog A) :
    emits ct unit t -> emits cs A k -> emits (cs ++ ct) A (Spawn t k).

(** The payloads handed to the wallet for signing in a trace. *)
Definition handed (tr : list Event) : list Payload :=
  flat_map payloads_of (calls_of tr).

(** The raw transactions sent to the node in a trace. *)
Definition sent (tr : list Event) : list bytes :=
  flat_map (fun c => match c with
                     | connection_sendRawTransaction _ raw => [raw]
                     | _ => []
                     end)
    (calls_of tr).

(** The signed transactions a fulfilled signing call answers with. *)
Definition signed_in (c : Call) : Settled (Resp c) -> list SignedTransaction :=
  match c with
  | provider_signTransaction _ =>
      fun r => match r with Fulfilled t => [t] | Rejected _ => [] end
  | provider_signAllTransactions _ =>
      fun r => match r with Fulfilled l => l | Rejected _ => [] end
  | _ => fun _ => []
  end.

(** The signed transactions the wallet returned in a trace, call by call. *)
Definition signed_by_wallet (env : Env) (tr : list Event) : list SignedTransaction :=
  flat_map (fun ev => match ev with
                      | Called n c => signed_in c (settles env n c)
                      | _ => []
                      end) tr.

(** A call to the node goes through connection [conn]. *)
Definition talks_to (conn : Connection) (c : Call) : Prop :=
  match c with
  | connection_getRecentBlockhash c' _
  | connection_getLatestBlockhash c'
  | connection_getAddressLookupTable c' _
  | connection_sendRawTransaction c' _
  | connection_confirmTransaction c' _ => c' = conn
  | _ => True
  end.

(** No wallet call is issued in the trace. *)
Fixpoint wallet_untouched (tr : list Event) : Prop :=
  match tr with
  | [] => True
  | Called _ c :: rest => is_provider_call c = false /\ wallet_untouched rest
  | _ :: rest => wallet_untouched rest
  end.

(** No wallet call is issued after the first rejected call, be it a wallet
    call or not. *)
Fixpoint no_wallet_call_after_failure (tr : list Event) : Prop :=
  match tr with
  | [] => True
  | Failed _ _ _ :: rest => wallet_untouched rest
  | _ :: rest => no_wallet_call_after_failure rest
  end.

(** The connection is the one of the selected cluster. *)
Definition network_consistent (lib : Library) (w : World) : Prop :=
  connection w = new_Connection (clusterApiUrl lib (cluster w)).

(** The fee payer of a payload is the account the wallet reports, and the
    payload has a block hash. *)
Definition funded_by (env : Env) (p : Payload) : Prop :=
  payload_feePayer p = provider_publicKey env /\ payload_recentBlockhash p <> None.

(** The buttons that only ask to connect or to disconnect. *)
Definition first_page_session_button (op : PhantomSandbox.Operation) : bool :=
  match op with
  | PhantomSandbox.click_connect | PhantomSandbox.click_disconnect => true
  | _ => false
  end.

Definition second_page_session_button (op : BraveWalletSandbox.Operation) : bool :=
  match op with
  | BraveWalletSandbox.click_connect | BraveWalletSandbox.click_connect_request
  | BraveWalletSandbox.click_eagerly_connect
  | BraveWalletSandbox.click_eagerly_connect_request
  | BraveWalletSandbox.click_disconnect
  | BraveWalletSandbox.click_disconnect_request => true
  | _ => false
  end.

(** The component function calls [getProvider()] each time it renders. *)
Definition render (win : Window) : Window := snd (getProvider win).

(** The node rejects the first call it gets and answers the others. *)
Definition network_down : Err := Rejection (-32005)%Z "Node is behind".

Definition flaky_env : Env :=
  {| provider_publicKey := Some sample_key;
     settles := fun n c =>
       match n with
       | 0 => Rejected network_down
       | _ => Fulfilled (granted c)
       end;
     arrives_first := fun _ _ => true |}.

Set Implicit Arguments.

(** * Facts about programs in general *)

Lemma entries_of_app (a b : list Event) :
  entries_of (a ++ b) = entries_of a ++ entries_of b.
Proof. unfold entries_of. apply flat_map_app. Qed.

Lemma calls_of_app (a b : list Event) :
  calls_of (a ++ b) = calls_of a ++ calls_of b.
Proof. unfold calls_of. apply flat_map_app. Qed.

(** A program that never calls [setLogs] itself only adds events to the
    trace, and its run makes the log grow by exactly the entries the trace
    records, each written by [addLog]. *)
Lemma run_extends (env : Env) (A : Type) (p : Prog A) :
  steps_in any_call not_setLogs p ->
  forall m, exists evs,
    trace (snd (run env p m)) = trace m ++ evs
    /\ logs (world (snd (run env p m))) = logs (world m) ++ entries_of evs
    /\ Forall appended_by_addLog (entries_of evs).
Proof.
  induction 1 as [A a | A e | A k Hk IH | A k Hk IH | A s k Hk IH
                 | A s k Hs Hk IH | A c k Hc Hk IH | A n c k Hc Hk IH
                 | A n n' k Hk IH | A t k Ht IHt Hk IHk];
    intros m; cbn [run].
  - exists []. cbn. rewrite !app_nil_r. auto.
  - exists []. cbn. rewrite !app_nil_r. auto.
  - apply IH.
  - apply IH.
  - destruct (IH (step_log s m)) as (evs & Ht & Hl & Hf).
    exists (Logged ("> " ++ s)%string :: evs). cbn in *.
    rewrite Ht, Hl, <- !app_assoc. cbn. repeat split; auto.
    constructor; [exists s; reflexivity | exact Hf].
  - destruct (IH (step_set s m)) as (evs & Ht & Hl & Hf).
    exists (StateSet s :: evs). cbn in *.
    rewrite Ht, <- app_assoc. cbn. repeat split; auto.
    rewrite Hl. destruct s; [destruct Hs | | | |]; reflexivity.
  - destruct (IH (issued m) (step_issue c m)) as (evs & Ht & Hl & Hf).
    exists (Called (issued m) c :: evs). cbn in *.
    rewrite Ht, <- app_assoc. cbn. repeat split; auto.
  - destruct (IH (settles env n c) (step_settle n c (settles env n c) m))
      as (evs & Ht & Hl & Hf).
    exists ((match settles env n c with
             | Fulfilled _ => Resolved n c
             | Rejected e => Failed n c e
             end) :: evs). cbn in *.
    rewrite Ht, <- app_assoc. cbn.
    destruct (settles env n c); cbn; repeat split; auto.
  - apply IH.
  - destruct (IHk m) as (evs1 & Ht1 & Hl1 & Hf1).
    destruct (run env k m) as [r m1] eqn:E1. cbn in *.
    destruct (IHt m1) as (evs2 & Ht2 & Hl2 & Hf2).
    destruct (run env t m1) as [r2 m2] eqn:E2. cbn in *.
    exists (evs1 ++ evs2).
    rewrite Ht2, Ht1, Hl2, Hl1, entries_of_app, <- !app_assoc.
    repeat split; auto. apply Forall_app; split; assumption.
Qed.

(** ** What bounded programs do *)

Section BoundsFacts.
Variable call_ok : Call -> Prop.
Variable setter_ok : Setter -> Prop.

Lemma steps_in_bind A B (p : Prog A) (f : A -> Prog B) :
  steps_in call_ok setter_ok p -> (forall a, steps_in call_ok setter_ok (f a)) -> steps_in call_ok setter_ok (bind p f).
Proof.
  intros Hp Hf. induction Hp; cbn; try (constructor; auto; fail).
  apply Hf.
Qed.

Lemma steps_in_try_catch A (p : Prog A) (h : Err -> Prog A) :
  steps_in call_ok setter_ok p -> (forall e, steps_in call_ok setter_ok (h e)) -> steps_in call_ok setter_ok (try_catch p h).
Proof.
  intros Hp Hh. induction Hp; cbn; try (constructor; auto; fail).
  apply Hh.
Qed.

Lemma steps_in_detached A (p : Prog A) :
  steps_in call_ok setter_ok p -> steps_in call_ok setter_ok (detached p).
Proof.
  intros Hp. unfold detached. apply steps_in_try_catch.
  - apply steps_in_bind; [exact Hp | intros; constructor].
  - intros; constructor.
Qed.

Lemma steps_in_await c : call_ok c -> steps_in call_ok setter_ok (await c).
Proof.
  intros Hc. unfold await. constructor; [exact Hc | intros n].
  constructor; [exact Hc | intros [a | e]; constructor].
Qed.

Lemma steps_in_all2 A B (p : Prog A) (q : Prog B) :
  steps_in call_ok setter_ok p -> steps_in call_ok setter_ok q -> steps_in call_ok setter_ok (all2 p q).
Proof.
  intros Hp. revert q.
  induction Hp as [A a | A e | A k Hk IH | A k Hk IH | A s k Hk IH
                  | A s k Hs Hk IH | A c k Hc Hk IH | A n c k Hc Hk IH
                  | A n m k Hk IH | A t k Ht IHt Hk IHk];
    intros q Hq; try (cbn [all2]; constructor; auto; fail).
  - induction Hq; cbn [all2]; constructor; auto.
  - induction Hq; cbn [all2]; try (constructor; auto; fail).
    constructor; [| constructor].
    apply steps_in_detached. constructor; auto.
  - assert (Hp : steps_in call_ok setter_ok (Wait n c k)) by (constructor; auto).
    induction Hq as [B b | B e | B k' Hk' IH' | B k' Hk' IH' | B s k' Hk' IH'
                    | B s k' Hs Hk' IH' | B c' k' Hc' Hk' IH'
                    | B n' c' k' Hc' Hk' IH' | B n' m' k' Hk' IH'
                    | B t k' Ht IHt Hk' IHk'];
      cbn [all2]; try (constructor; auto; fail).
    + constructor; [exact Hc | intros r]. apply IH. constructor.
    + constructor; [| constructor]. apply steps_in_detached. exact Hp.
    + constructor. intros [|].
      * constructor; [exact Hc | intros r]. apply IH. constructor; auto.
      * constructor; [exact Hc' | intros r]. apply IH'. exact IH.
Qed.

Lemma steps_in_Promise_all A (ps : list (Prog A)) :
  Forall (@steps_in call_ok setter_ok A) ps -> steps_in call_ok setter_ok (Promise_all ps).
Proof.
  induction 1 as [| p rest Hp _ IH]; cbn.
  - constructor.
  - apply steps_in_bind.
    + apply steps_in_all2; assumption.
    + intros; constructor.
Qed.

(** A run of such a program adds only events within the bounds. *)
Lemma run_steps_in (env : Env) A (p : Prog A) :
  steps_in call_ok setter_ok p ->
  forall m, exists evs,
    trace (snd (run env p m)) = trace m ++ evs /\ Forall (event_ok call_ok setter_ok) evs.
Proof.
  induction 1 as [A a | A e | A k Hk IH | A k Hk IH | A s k Hk IH
                 | A s k Hs Hk IH | A c k Hc Hk IH | A n c k Hc Hk IH
                 | A n m k Hk IH | A t k Ht IHt Hk IHk];
    intros m0; cbn [run].
  - exists []. cbn. rewrite app_nil_r. auto.
  - exists []. cbn. rewrite app_nil_r. auto.
  - apply IH.
  - apply IH.
  - destruct (IH (step_log s m0)) as (evs & Ht & Hf).
    exists (Logged ("> " ++ s)%string :: evs). cbn in *.
    rewrite Ht, <- app_assoc. split; [reflexivity |].
    constructor; [exact I | exact Hf].
  - destruct (IH (step_set s m0)) as (evs & Ht & Hf).
    exists (StateSet s :: evs). cbn in *.
    rewrite Ht, <- app_assoc. split; [reflexivity |].
    constructor; [exact Hs | exact Hf].
  - destruct (IH (issued m0) (step_issue c m0)) as (evs & Ht & Hf).
    exists (Called (issued m0) c :: evs). cbn in *.
    rewrite Ht, <- app_assoc. split; [reflexivity |].
    constructor; [exact Hc | exact Hf].
  - destruct (IH (settles env n c) (step_settle n c (settles env n c) m0))
      as (evs & Ht & Hf).
    exists ((match settles env n c with
             | Fulfilled _ => Resolved n c
             | Rejected e => Failed n c e
             end) :: evs). cbn in *.
    rewrite Ht, <- app_assoc. split; [reflexivity |].
    constructor; [destruct (settles env n c); exact Hc | exact Hf].
  - apply IH.
  - destruct (IHk m0) as (evs1 & Ht1 & Hf1).
    destruct (run env k m0) as [r m1] eqn:E1. cbn in *.
    destruct (IHt m1) as (evs2 & Ht2 & Hf2).
    destruct (run env t m1) as [r2 m2] eqn:E2. cbn in *.
    exists (evs1 ++ evs2). rewrite Ht2, Ht1, <- app_assoc.
    split; [reflexivity | apply Forall_app; split; assumption].
Qed.

End BoundsFacts.

Unset Implicit Arguments.

Lemma after_rejection_quiet (tr evs : list Event) :
  Forall (event_ok not_provider any_setter) evs ->
  after_rejection tr = None ->
  after_rejection (tr ++ evs) = None.
Proof.
  intros Hq. induction tr as [| ev tr IH]; cbn.
  - intros _. induction Hq as [| ev evs Hev _ IH]; cbn; [reflexivity |].
    destruct ev; cbn in *; try exact IH.
    unfold not_provider in Hev. rewrite Hev. exact IH.
  - destruct ev; try exact IH.
    destruct (is_provider_call c); [discriminate | exact IH].
Qed.

Lemma provider_calls_quiet (tr evs : list Event) :
  Forall (event_ok not_provider any_setter) evs ->
  provider_calls (tr ++ evs) = provider_calls tr.
Proof.
  intros Hq. unfold provider_calls. rewrite calls_of_app, filter_app.
  replace (filter is_provider_call (calls_of evs)) with (@nil Call).
  - apply app_nil_r.
  - induction Hq as [| ev evs Hev _ IH]; cbn; [reflexivity |].
    destruct ev; cbn in *; try exact IH.
    unfold not_provider in Hev. rewrite Hev. exact IH.
Qed.

(** A program that never touches the wallet leaves no rejected wallet call
    behind and adds no wallet call. *)
Lemma run_quiet (env : Env) (A : Type) (p : Prog A) (m : Machine) :
  steps_in not_provider any_setter p ->
  (after_rejection (trace m) = None ->
   after_rejection (trace (snd (run env p m))) = None)
  /\ provider_calls (trace (snd (run env p m))) = provider_calls (trace m).
Proof.
  intros Hp.
  destruct (run_steps_in env Hp m) as (evs & Ht & Hq).
  rewrite Ht. split.
  - apply after_rejection_quiet; exact Hq.
  - apply provider_calls_quiet; exact Hq.
Qed.

(** A program without a state setter leaves cluster, connection and session
    as they were. *)
Lemma run_keeps_state (env : Env) (A : Type) (p : Prog A) :
  steps_in any_call no_setter p ->
  forall m,
    let w' := world (snd (run env p m)) in
    cluster w' = cluster (world m)
    /\ connection w' = connection (world m)
    /\ connected w' = connected (world m)
    /\ publicKey w' = publicKey (world m).
Proof.
  induction 1 as [A a | A e | A k Hk IH | A k Hk IH | A s k Hk IH
                 | A s k Hs Hk IH | A c k Hc Hk IH | A n c k Hc Hk IH
                 | A n m k Hk IH | A t k Ht IHt Hk IHk];
    intros m0; cbn [run].
  - cbn. auto.
  - cbn. auto.
  - apply IH.
  - apply IH.
  - apply (IH (step_log s m0)).
  - destruct Hs.
  - apply (IH _ (step_issue c m0)).
  - apply (IH _ (step_settle n c (settles env n c) m0)).
  - apply IH.
  - specialize (IHk m0). destruct (run env k m0) as [r m1]. cbn in IHk.
    specialize (IHt m1). destruct (run env t m1) as [r2 m2]. cbn in *.
    intuition congruence.
Qed.

(** Sending each signed transaction stays within any bounds that allow
    [sendRawTransaction]. *)
Lemma send_within (call_ok : Call -> Prop) (setter_ok : Setter -> Prop)
    (conn : Connection) (f : SignedTransaction -> bytes)
    (txns : list SignedTransaction) :
  (forall raw, call_ok (connection_sendRawTransaction conn raw)) ->
  Forall (@steps_in call_ok setter_ok TransactionSignature)
    (map (fun tx =>
            (await (connection_sendRawTransaction conn (f tx)))
            : Prog TransactionSignature)
       txns).
Proof.
  intros Hsend. apply Forall_map, Forall_forall. intros tx _.
  apply (@steps_in_await call_ok setter_ok
           (connection_sendRawTransaction conn (f tx))).
  apply Hsend.
Qed.

Lemma run_quiet_batches (env : Env) (A : Type) (p : Prog A) (m : Machine) :
  steps_in not_provider any_setter p ->
  batches (trace (snd (run env p m))) = batches (trace m).
Proof.
  intros Hp. unfold batches.
  rewrite (proj2 (@run_quiet env A p m Hp)). reflexivity.
Qed.

(** The end of the two batch handlers: the signed transactions are sent,
    the outcome is logged. *)
Ltac sending_tail :=
  apply steps_in_try_catch;
  [ apply steps_in_bind;
    [ apply steps_in_Promise_all; apply send_within; intros; first [reflexivity | exact I]
    | intros; repeat constructor ]
  | intros; repeat constructor ].

(** Case analysis on what the environment answers, in the order the run
    asks. *)
Ltac ask_env :=
  match goal with
  | |- context [provider_publicKey ?e] => destruct (provider_publicKey e)
  | |- context [settles ?e ?n ?c] => destruct (settles e n c)
  | |- context [arrives_first ?e ?n ?m] => destruct (arrives_first e n m)
  end.

Ltac follow_run := cbn; repeat (ask_env; cbn).

Ltac close_rejection :=
  first
    [ exact I
    | eexists; split; reflexivity
    | match goal with
      | |- match after_rejection (trace (snd (run ?env ?p ?m))) with _ => _ end =>
          rewrite (proj1 (@run_quiet env _ p m ltac:(sending_tail)) eq_refl);
          exact I
      end ].

Ltac close_session :=
  first
    [ split; reflexivity
    | match goal with
      | |- context [run ?env ?p ?m] =>
          let H := fresh in
          destruct (@run_keeps_state env _ p ltac:(sending_tail) m)
            as (_ & _ & H);
          exact H
      end ].

Ltac close_batches :=
  first
    [ reflexivity
    | match goal with
      | |- batches (trace (snd (run ?env ?p ?m))) = _ =>
          rewrite (@run_quiet_batches env _ p m ltac:(sending_tail));
          reflexivity
      end ].

Lemma Cluster_eqb_eq (a b : Cluster) : Cluster_eqb a b = true <-> a = b.
Proof. destruct a, b; cbn; split; congruence. Qed.

Lemma change_selection_run (lib : Library) (env : Env) (w : World)
    (newCluster : Cluster) :
  newCluster <> cluster w ->
  let m := after env (change_selection lib newCluster) w in
  connection (world m) = new_Connection (clusterApiUrl lib newCluster)
  /\ cluster (world m) = newCluster
  /\ logs (world m)
     = logs w ++ [("> [cluster changed] " ++ cluster_name newCluster)%string].
Proof.
  intros Hnew. unfold after. cbn.
  destruct (Cluster_eqb (cluster w) newCluster) eqn:E.
  - apply Cluster_eqb_eq in E. congruence.
  - cbn. auto.
Qed.

Lemma first_page_buttons_log_rejections (lib : Library) (env : Env) (w : World)
    (op : PhantomSandbox.Operation) :
  PhantomSandbox.is_button op = true ->
  logged_once_as_error (trace (after env (PhantomSandbox.handler lib op) w))
  /\ session_kept w (after env (PhantomSandbox.handler lib op) w).
Proof.
  intros Hb. unfold logged_once_as_error, session_kept, after.
  destruct op; try discriminate Hb; clear Hb;
    repeat match goal with b : bool |- _ => destruct b end;
    (split; [follow_run; close_rejection | follow_run; close_session]).
Qed.

Lemma second_page_buttons_log_rejections (lib : Library) (env : Env) (w : World)
    (op : BraveWalletSandbox.Operation) :
  BraveWalletSandbox.is_button op = true ->
  logged_once_as_error (trace (after env (BraveWalletSandbox.handler lib op) w))
  /\ session_kept w (after env (BraveWalletSandbox.handler lib op) w).
Proof.
  intros Hb. unfold logged_once_as_error, session_kept, after.
  destruct op; try discriminate Hb; clear Hb;
    repeat match goal with b : bool |- _ => destruct b end;
    (split; [follow_run; close_rejection | follow_run; close_session]).
Qed.

(** ** The calls a program issues *)

Lemma emits_bind cs A B (p : Prog A) (f : A -> Prog B) :
  emits cs A p -> (forall a, emits [] B (f a)) -> emits cs B (bind p f).
Proof.
  intros Hp Hf. induction Hp; cbn [bind]; try (constructor; auto; fail).
  - apply Hf.
Qed.

Lemma emits_try_catch cs A (p : Prog A) (h : Err -> Prog A) :
  emits cs A p -> (forall e, emits [] A (h e)) -> emits cs A (try_catch p h).
Proof.
  intros Hp Hh. induction Hp; cbn [try_catch]; try (constructor; auto; fail).
  - apply Hh.
Qed.

Lemma emits_detached cs A (p : Prog A) : emits cs A p -> emits cs unit (detached p).
Proof.
  intros Hp. unfold detached. apply emits_try_catch.
  - apply emits_bind; [exact Hp | intros; constructor].
  - intros; constructor.
Qed.

Lemma emits_nil_Spawn A t (k : Prog A) :
  emits [] unit t -> emits [] A k -> emits [] A (Spawn t k).
Proof. intros Ht Hk. apply (emits_Spawn [] [] A t k Ht Hk). Qed.

Lemma emits_all2_silent cs A B (p : Prog A) (q : Prog B) :
  emits [] A p -> emits cs B q -> emits cs (A * B) (all2 p q).
Proof.
  intros Hp. remember (@nil Call) as none eqn:Hnone. revert cs q.
  induction Hp as [A a | A e | c0 A k Hk IH | c0 A k Hk IH | c0 A s k Hk IH
                  | c0 A s k Hk IH | c0 A c k Hk IH | c0 A n c k Hk IH
                  | c0 A n m k Hk IH | c0 ct A t k Ht IHt Hk IHk];
    intros cs q Hq; try subst c0; try discriminate Hnone;
    try (cbn [all2]; constructor; auto; fail).
  - induction Hq; cbn [all2]; constructor; auto.
  - induction Hq as [B b | B e' | cs B k' Hk' IH' | cs B k' Hk' IH' | cs B s k' Hk' IH'
                    | cs B s k' Hk' IH' | cs B c' k' Hk' IH'
                    | cs B n' c' k' Hk' IH' | cs B n' m' k' Hk' IH'
                    | cs ct B t k' Ht IHt Hk' IHk'];
      cbn [all2]; try (constructor; auto; fail).
    apply (emits_Spawn [] cs); [| constructor].
    apply emits_detached. constructor; auto.
  - assert (Hp : emits [] A (Wait n c k)) by (constructor; auto).
    induction Hq as [B b | B e | cs B k' Hk' IH' | cs B k' Hk' IH' | cs B s k' Hk' IH'
                    | cs B s k' Hk' IH' | cs B c' k' Hk' IH'
                    | cs B n' c' k' Hk' IH' | cs B n' m' k' Hk' IH'
                    | cs ct B t k' Ht IHt Hk' IHk'];
      cbn [all2]; try (constructor; auto; fail).
    + constructor. intros r. apply IH; [reflexivity | constructor].
    + apply emits_nil_Spawn; [| constructor]. apply emits_detached. exact Hp.
    + constructor. intros [|].
      * constructor. intros r. apply IH; [reflexivity | constructor; auto].
      * constructor. intros r. apply IH'; auto.
  - apply app_eq_nil in Hnone. destruct Hnone; subst.
    cbn [all2]. rewrite <- (app_nil_r cs). constructor; auto.
Qed.

Lemma emits_send_each (conn : Connection) (f : SignedTransaction -> bytes)
    (txns : list SignedTransaction) :
  emits (map (connection_sendRawTransaction conn) (map f txns)) _
    (Promise_all
       (map (fun tx =>
               (await (connection_sendRawTransaction conn (f tx)))
               : Prog TransactionSignature)
          txns)).
Proof.
  induction txns as [| tx rest IH]; cbn [map Promise_all].
  - constructor.
  - apply emits_bind; [| intros; constructor].
    unfold await at 1.
    change (emits
              (connection_sendRawTransaction conn (f tx)
               :: map (connection_sendRawTransaction conn) (map f rest)) _
              (Issue (connection_sendRawTransaction conn (f tx))
                 (fun n =>
                    all2 (Wait n (connection_sendRawTransaction conn (f tx))
                            settle_or_throw)
                      (Promise_all
                         (map (fun tx =>
                                 (await (connection_sendRawTransaction conn (f tx)))
                                 : Prog TransactionSignature)
                            rest))))).
    constructor. intros n.
    apply emits_all2_silent; [| exact IH].
    constructor. intros [a | e]; constructor.
Qed.

Lemma run_emits (env : Env) cs A (p : Prog A) :
  emits cs A p ->
  forall m, exists evs,
    trace (snd (run env p m)) = trace m ++ evs /\ calls_of evs = cs.
Proof.
  induction 1 as [A a | A e | cs A k Hk IH | cs A k Hk IH | cs A s k Hk IH
                 | cs A s k Hk IH | cs A c k Hk IH | cs A n c k Hk IH
                 | cs A n m k Hk IH | cs ct A t k Ht IHt Hk IHk];
    intros m0; cbn [run].
  - exists []. cbn. rewrite app_nil_r. auto.
  - exists []. cbn. rewrite app_nil_r. auto.
  - apply IH.
  - apply IH.
  - destruct (IH (step_log s m0)) as (evs & Ht & Hc).
    exists (Logged ("> " ++ s)%string :: evs). cbn in *.
    rewrite Ht, <- app_assoc. auto.
  - destruct (IH (step_set s m0)) as (evs & Ht & Hc).
    exists (StateSet s :: evs). cbn in *.
    rewrite Ht, <- app_assoc. auto.
  - destruct (IH (issued m0) (step_issue c m0)) as (evs & Ht & Hc).
    exists (Called (issued m0) c :: evs). cbn in *.
    rewrite Ht, <- app_assoc. split; [reflexivity | rewrite <- Hc; reflexivity].
  - destruct (IH (settles env n c) (step_settle n c (settles env n c) m0))
      as (evs & Ht & Hc).
    exists ((match settles env n c with
             | Fulfilled _ => Resolved n c
             | Rejected e => Failed n c e
             end) :: evs). cbn in *.
    rewrite Ht, <- app_assoc. split; [reflexivity |].
    destruct (settles env n c); exact Hc.
  - apply IH.
  - destruct (IHk m0) as (evs1 & Ht1 & Hc1).
    destruct (run env k m0) as [r m1] eqn:E1. cbn in *.
    destruct (IHt m1) as (evs2 & Ht2 & Hc2).
    destruct (run env t m1) as [r2 m2] eqn:E2. cbn in *.
    exists (evs1 ++ evs2). rewrite Ht2, Ht1, <- app_assoc.
    split; [reflexivity |]. rewrite calls_of_app. congruence.
Qed.

(** What a stretch of trace does when its calls are all
    [sendRawTransaction] through [conn]. *)
Lemma sends_facts (env : Env) (conn : Connection) (raws : list bytes) (evs : list Event) :
  calls_of evs = map (connection_sendRawTransaction conn) raws ->
  handed evs = []
  /\ sent evs = raws
  /\ signed_by_wallet env evs = []
  /\ Forall (talks_to conn) (calls_of evs)
  /\ wallet_untouched evs
  /\ provider_calls evs = [].
Proof.
  revert raws. induction evs as [| ev evs IH]; intros raws Hc.
  - destruct raws; [| discriminate Hc]. cbn. repeat split; constructor.
  - destruct ev; cbn in Hc; try exact (IH raws Hc).
    destruct raws as [| raw raws]; [discriminate Hc |].
    cbn in Hc. injection Hc as Hc1 Hc2. subst c.
    destruct (IH raws Hc2) as (H1 & H2 & H3 & H4 & H5 & H6).
    unfold handed, sent, signed_by_wallet, provider_calls in *. cbn.
    split; [exact H1 |].
    split; [f_equal; exact H2 |].
    split; [exact H3 |].
    split; [constructor; [reflexivity | exact H4] |].
    split; [split; [reflexivity | exact H5] | exact H6].
Qed.

Lemma handed_app a b : handed (a ++ b) = handed a ++ handed b.
Proof. unfold handed. rewrite calls_of_app. apply flat_map_app. Qed.

Lemma sent_app a b : sent (a ++ b) = sent a ++ sent b.
Proof. unfold sent. rewrite calls_of_app. apply flat_map_app. Qed.

Lemma signed_by_wallet_app env a b :
  signed_by_wallet env (a ++ b) = signed_by_wallet env a ++ signed_by_wallet env b.
Proof. unfold signed_by_wallet. apply flat_map_app. Qed.

Lemma provider_calls_app a b :
  provider_calls (a ++ b) = provider_calls a ++ provider_calls b.
Proof. unfold provider_calls. rewrite calls_of_app. apply filter_app. Qed.

Lemma wallet_untouched_app a b :
  wallet_untouched a -> wallet_untouched b -> wallet_untouched (a ++ b).
Proof.
  intros Ha Hb. induction a as [| ev a IH]; cbn in *; [exact Hb |].
  destruct ev; auto. destruct Ha. auto.
Qed.

Lemma wallet_untouched_no_call_after_failure tr :
  wallet_untouched tr -> no_wallet_call_after_failure tr.
Proof.
  induction tr as [| ev tr IH]; cbn; [auto |].
  destruct ev; auto. intros [_ H]. auto.
Qed.

Lemma no_wallet_call_after_failure_app a b :
  no_wallet_call_after_failure a -> wallet_untouched b ->
  no_wallet_call_after_failure (a ++ b).
Proof.
  intros Ha Hb. induction a as [| ev a IH]; cbn in *.
  - apply wallet_untouched_no_call_after_failure. exact Hb.
  - destruct ev; auto. apply wallet_untouched_app; assumption.
Qed.

(** The end of the two batch handlers issues one [sendRawTransaction] for
    each signed transaction. *)
Ltac sends_emitted :=
  apply emits_try_catch;
  [ apply emits_bind;
    [ apply emits_send_each | intros; repeat constructor ]
  | intros; repeat constructor ].

Ltac open_tail env0 :=
  match goal with
  | |- context [run env0 ?p ?m] =>
      let H := fresh "Hemits" in
      eassert (H : emits _ _ p) by sends_emitted;
      let evs := fresh "evs" in
      let Ht := fresh "Ht" in
      let Hc := fresh "Hc" in
      destruct (run_emits env0 _ _ p H m) as (evs & Ht & Hc);
      rewrite Ht; clear Ht H;
      let F := fresh "Hsends" in
      pose proof (sends_facts env0 _ _ evs Hc) as F
  end.

(** As [ask_env], with each answer kept so that a second look at the same
    call finds the same answer. *)
Ltac ask_env_eq :=
  match goal with
  | H : provider_publicKey ?e = _ |- context [provider_publicKey ?e] => rewrite H
  | |- context [provider_publicKey ?e] => destruct (provider_publicKey e) eqn:?
  | H : settles ?e ?n ?c = _ |- context [settles ?e ?n ?c] => rewrite H
  | |- context [settles ?e ?n ?c] => destruct (settles e n c) eqn:?
  | |- context [arrives_first ?e ?n ?m] => destruct (arrives_first e n m)
  | |- context [Cluster_eqb ?a ?b] => destruct (Cluster_eqb a b)
  end.

Ltac follow_run_eq := cbn; repeat (ask_env_eq; cbn).

Ltac each_operation op :=
  destruct op;
  repeat match goal with
         | b : bool |- _ => destruct b
         | k : option _ |- _ => destruct k
         end.

Ltac close_sent env0 :=
  try (open_tail env0;
       match goal with
       | H : _ /\ sent _ = _ /\ signed_by_wallet _ _ = _ /\ _ |- _ =>
           destruct H as (_ & ?Hs & ?Hw & _);
           rewrite sent_app, signed_by_wallet_app, Hs, Hw
       end);
  cbn; repeat (ask_env_eq; cbn); rewrite ?app_nil_r; reflexivity.

Ltac close_handed env0 :=
  try (open_tail env0;
       match goal with
       | H : handed _ = [] /\ _ |- _ =>
           destruct H as (?Hh & _); rewrite handed_app, Hh, app_nil_r
       end);
  cbn; repeat constructor; cbn; discriminate.

Ltac close_talks env0 :=
  try (open_tail env0;
       match goal with
       | H : _ /\ _ /\ _ /\ Forall _ _ /\ _ |- _ =>
           destruct H as (_ & _ & _ & ?Hf & _);
           rewrite calls_of_app; apply Forall_app; split; [| exact Hf]
       end);
  cbn; repeat constructor.

Ltac close_after_failure env0 :=
  try (open_tail env0;
       match goal with
       | H : _ /\ _ /\ _ /\ _ /\ wallet_untouched _ /\ _ |- _ =>
           destruct H as (_ & _ & _ & _ & ?Hu & _);
           apply no_wallet_call_after_failure_app; [| exact Hu]
       end);
  cbn; repeat split.

Ltac close_once env0 :=
  try (open_tail env0;
       match goal with
       | H : _ /\ _ /\ _ /\ _ /\ _ /\ provider_calls _ = [] |- _ =>
           destruct H as (_ & _ & _ & _ & _ & ?Hp);
           rewrite provider_calls_app, Hp, app_nil_r
       end);
  cbn; lia.

Ltac close_network env0 :=
  first
    [ assumption
    | reflexivity
    | match goal with
      | |- context [run env0 ?p ?m] =>
          let Hcl := fresh in
          let Hco := fresh in
          destruct (@run_keeps_state env0 _ p ltac:(sending_tail) m)
            as (Hcl & Hco & _);
          cbn in Hcl, Hco; rewrite Hcl, Hco; assumption
      end ].

(** ** The handlers and [setLogs] *)

(** Walks through a handler, step by step and case by case. *)
Ltac within_bounds :=
  repeat (cbn;
          first
            [ progress intros
            | exact I
            | match goal with
              | |- context [match ?x with _ => _ end] => is_var x; destruct x
              | |- context [settle_or_throw ?r] => is_var r; destruct r
              | |- steps_in _ _ (match ?x with _ => _ end) => destruct x
              end
            | solve [sending_tail]
            | constructor ]).

(** No operation of either page calls [setLogs] but through [addLog]. *)
Lemma first_page_never_calls_setLogs (lib : Library)
    (op : PhantomSandbox.Operation) :
  steps_in any_call not_setLogs (PhantomSandbox.handler lib op).
Proof. each_operation op; within_bounds. Qed.

Lemma second_page_never_calls_setLogs (lib : Library)
    (op : BraveWalletSandbox.Operation) :
  steps_in any_call not_setLogs (BraveWalletSandbox.handler lib op).
Proof. each_operation op; within_bounds. Qed.

(** What a handler that does call [setLogs] can do to the log. *)
Example a_program_that_calls_setLogs_can_clear_the_log :
  logs (world (after willing_env (set (setLogs (fun _ => [])))
                 {| logs := ["> [connect] 4Nd1mYvKZQxXo1J8mBo9nT7yYc3iXKjWZ7p5sU5vxT2h"];
                    cluster := devnet;
                    connection := new_Connection "https://api.devnet.solana.com";
                    connected := true;
                    publicKey := Some sample_key |}))
  = [].
Proof. reflexivity. Qed.

(** * The properties of the pages *)

(** ** Detecting the wallet *)



(** ** The log *)

(** C9. The log only grows at its end.  [addLog] appends exactly one entry,
    which starts with ["> "], after the entries already there.  No operation
    of either page calls [setLogs] in any other way, and after any operation
    the log is the old log followed by the entries the run wrote through
    [addLog], in order. *)
Theorem log_is_append_only :
  (forall text w, logs (addLog text w) = logs w ++ [("> " ++ text)%string])
  /\ (forall lib env w (op : PhantomSandbox.Operation),
         let m := after env (PhantomSandbox.handler lib op) w in
         Forall (event_ok any_call not_setLogs) (trace m)
         /\ logs (world m) = logs w ++ entries_of (trace m)
         /\ Forall appended_by_addLog (entries_of (trace m)))
  /\ (forall lib env w (op : BraveWalletSandbox.Operation),
         let m := after env (BraveWalletSandbox.handler lib op) w in
         Forall (event_ok any_call not_setLogs) (trace m)
         /\ logs (world m) = logs w ++ entries_of (trace m)
         /\ Forall appended_by_addLog (entries_of (trace m))).
Proof.
  split; [reflexivity |].
  split; intros lib env w op m; subst m; unfold after.
  - pose proof (first_page_never_calls_setLogs lib op) as Hop.
    destruct (run_extends env Hop (start w)) as (evs & Ht & Hl & Hf).
    destruct (run_steps_in env Hop (start w)) as (evs' & Ht' & Hb).
    cbn in Ht, Hl, Ht'. rewrite Ht' in Ht. subst evs'.
    rewrite Ht', Hl. auto.
  - pose proof (second_page_never_calls_setLogs lib op) as Hop.
    destruct (run_extends env Hop (start w)) as (evs & Ht & Hl & Hf).
    destruct (run_steps_in env Hop (start w)) as (evs' & Ht' & Hb).
    cbn in Ht, Hl, Ht'. rewrite Ht' in Ht. subst evs'.
    rewrite Ht', Hl. auto.
Qed.

(** ** The session *)

(** C1, as the spec states it, fails: on the freshly rendered page an
    [accountChanged] event that names an account stores the identity while
    the connected flag stays false. *)
Lemma accountChanged_breaks_session_invariant :
  ~ session_invariant
      (world (after willing_env (on_accountChanged (Some sample_key))
                (first_render sample_library))).
Proof.
  unfold session_invariant. cbn. intros [H _].
  assert (false = true) by (apply H; discriminate).
  discriminate.
Qed.

(** C1, amended.  After a [connect] event that carries an identity, and
    after a [disconnect] event, the identity is known exactly when the
    connected flag is set.  An [accountChanged] event stores the identity it
    carries, absent or not, and leaves the connected flag as it was. *)
Theorem session_after_events (farewell : string) (env : Env) (w : World) :
  (forall key,
      let w' := world (after env (on_connect (Some key)) w) in
      publicKey w' = Some key /\ connected w' = true /\ session_invariant w')
  /\ (let w' := world (after env (on_disconnect farewell) w) in
      publicKey w' = None /\ connected w' = false /\ session_invariant w')
  /\ (forall key,
         let w' := world (after env (on_accountChanged key) w) in
         publicKey w' = key /\ connected w' = connected w).
Proof.
  unfold session_invariant, after. repeat split; cbn; try congruence.
  - destruct key; cbn; [reflexivity |].
    destruct (settles env 0 (provider_connect None)); reflexivity.
  - destruct key; cbn; [reflexivity |].
    destruct (settles env 0 (provider_connect None)); reflexivity.
Qed.

(** ** Choosing a cluster *)

(** C7. On either page, for each of the three clusters, selecting a cluster
    other than the current one replaces the connection by a new
    [Connection] on [clusterApiUrl] of the selected cluster, records the
    selection, and appends exactly one entry, which names the new cluster. *)
Theorem cluster_change_replaces_connection (lib : Library) (env : Env)
    (w : World) (newCluster : Cluster) :
  newCluster <> cluster w ->
  (let m := after env (PhantomSandbox.handler lib
                         (PhantomSandbox.select_cluster newCluster)) w in
   connection (world m) = new_Connection (clusterApiUrl lib newCluster)
   /\ cluster (world m) = newCluster
   /\ logs (world m)
      = logs w ++ [("> [cluster changed] " ++ cluster_name newCluster)%string])
  /\ (let m := after env (BraveWalletSandbox.handler lib
                            (BraveWalletSandbox.select_cluster newCluster)) w in
      connection (world m) = new_Connection (clusterApiUrl lib newCluster)
      /\ cluster (world m) = newCluster
      /\ logs (world m)
         = logs w ++ [("> [cluster changed] " ++ cluster_name newCluster)%string]).
Proof.
  intros Hnew. split; apply change_selection_run; exact Hnew.
Qed.

Lemma cluster_change_replaces_connection_example :
  testnet <> cluster (first_render sample_library)
  /\ logs (world (after willing_env
                    (BraveWalletSandbox.handler sample_library
                       (BraveWalletSandbox.select_cluster testnet))
                    (first_render sample_library)))
     = ["> [cluster changed] testnet"].
Proof.
  split; [discriminate |].
  apply (cluster_change_replaces_connection sample_library willing_env
           (first_render sample_library) testnet).
  discriminate.
Defined.

(** ** No account connected *)

(** C10. When the wallet reports no account, each of the four builders
    returns nothing and does nothing at all (no block hash is fetched, the
    log is untouched), and each sign-and-send handler of either page then
    returns without one call to the wallet or the node and without a log
    entry. *)
Theorem no_account_nothing_built_nothing_signed (lib : Library) (env : Env)
    (w : World) :
  provider_publicKey env = None ->
  (run env createTransferTransaction (start w) = (Fulfilled None, start w)
   /\ run env PhantomSandbox.createSplTokenTransferTransaction (start w)
      = (Fulfilled None, start w)
   /\ run env BraveWalletSandbox.createSplTokenTransferTransaction (start w)
      = (Fulfilled None, start w)
   /\ run env BraveWalletSandbox.createTransferTransactionV0 (start w)
      = (Fulfilled None, start w)
   /\ (forall address,
          run env (BraveWalletSandbox.createTransferTransactionV0WithLookupTable
                     address) (start w)
          = (Fulfilled None, start w)))
  /\ (run env (PhantomSandbox.signAndSendTransaction lib) (start w)
      = (Fulfilled tt, start w)
      /\ run env (PhantomSandbox.signAndSendSplTokenTransaction lib) (start w)
         = (Fulfilled tt, start w)
      /\ run env (BraveWalletSandbox.signAndSendTransaction lib) (start w)
         = (Fulfilled tt, start w)
      /\ run env (BraveWalletSandbox.signAndSendTransactionV0 lib) (start w)
         = (Fulfilled tt, start w)
      /\ run env (BraveWalletSandbox.signAndSendTransactionV0WithLookupTable lib)
           (start w)
         = (Fulfilled tt, start w)
      /\ run env (BraveWalletSandbox.signAndSendTransactionRequest lib) (start w)
         = (Fulfilled tt, start w)
      /\ run env (BraveWalletSandbox.signAndSendSplTokenTransaction lib) (start w)
         = (Fulfilled tt, start w)).
Proof.
  intros Hnone.
  repeat split; intros; cbn; rewrite Hnone; reflexivity.
Qed.

Lemma no_account_nothing_built_nothing_signed_example :
  provider_publicKey locked_env = None
  /\ trace (after locked_env (BraveWalletSandbox.signAndSendTransactionRequest
                                sample_library)
              (first_render sample_library)) = [].
Proof.
  split; [reflexivity |].
  unfold after.
  rewrite (proj1 (proj2 (proj2 (proj2 (proj2 (proj2 (proj2
             (no_account_nothing_built_nothing_signed sample_library locked_env
                (first_render sample_library) eq_refl)))))))).
  reflexivity.
Defined.

(** ** Sign and send: the direct path and the generic-request path *)

(** C2, as the spec states it, fails: with a wallet and a node that grant
    everything, the options of the wallet call differ between the direct
    handler and the request handler. *)
Lemma request_path_options_differ :
  map options_of
    (provider_calls
       (trace (after willing_env
                 (BraveWalletSandbox.signAndSendTransaction sample_library)
                 (first_render sample_library))))
  <> map options_of
       (provider_calls
          (trace (after willing_env
                    (BraveWalletSandbox.signAndSendTransactionRequest sample_library)
                    (first_render sample_library)))).
Proof. cbn. discriminate. Qed.

(** C2, amended.  For a connected account and answers that succeed, with
    the same transaction signature in the wallet's answer, the request
    handler and the direct handler fetch the same block hash, ask the wallet
    for the same capability ([signAndSendTransaction]) on the same
    transaction (sent as such on the direct path, as the base-58 text of its
    serialized message on the request path) with the same [maxRetries] (3)
    and [skipPreflight] (false), confirm the same signature and leave the
    same log.  They differ in [preflightCommitment]: ["finalized"] on the
    direct path, ["confirmed"] on the request path. *)
Theorem request_path_matches_direct_path (lib : Library) (env : Env)
    (w : World) (key : PublicKey) (h : Blockhash) (direct requested : Answer) :
  let t := transfer_to_self key h in
  let direct_call :=
    provider_signAndSendTransaction (Legacy t)
      {| maxRetries := 3; preflightCommitment := "finalized";
         skipPreflight := false |} in
  let request_call :=
    provider_request "signAndSendTransaction"
      (params_message_option (bs58_encode lib (serializeMessage lib t))
         {| maxRetries := 3; preflightCommitment := "confirmed";
            skipPreflight := false |}) in
  let fetch := connection_getRecentBlockhash (connection w) "finalized" in
  let confirm := connection_confirmTransaction (connection w) (signature direct) in
  provider_publicKey env = Some key ->
  settles env 0 fetch = Fulfilled h ->
  settles env 1 direct_call = Fulfilled direct ->
  settles env 1 request_call = Fulfilled requested ->
  signature requested = signature direct ->
  settles env 2 confirm = Fulfilled tt ->
  let d := after env (BraveWalletSandbox.signAndSendTransaction lib) w in
  let r := after env (BraveWalletSandbox.signAndSendTransactionRequest lib) w in
  calls_of (trace d) = [fetch; direct_call; confirm]
  /\ calls_of (trace r) = [fetch; request_call; confirm]
  /\ map method_of (provider_calls (trace d))
     = map method_of (provider_calls (trace r))
  /\ map (option_map maxRetries) (map options_of (provider_calls (trace d)))
     = map (option_map maxRetries) (map options_of (provider_calls (trace r)))
  /\ map (option_map skipPreflight) (map options_of (provider_calls (trace d)))
     = map (option_map skipPreflight) (map options_of (provider_calls (trace r)))
  /\ rpc_calls (trace d) = rpc_calls (trace r)
  /\ logs (world d) = logs (world r)
  /\ logs (world r)
     = logs w ++ ["> Getting recent blockhash";
                  ("> blockhash: " ++ h ++ " = finalized")%string;
                  ("> Transaction " ++ signature direct ++ " confirmed")%string]
  /\ map (option_map preflightCommitment) (map options_of (provider_calls (trace d)))
     = [Some "finalized"]
  /\ map (option_map preflightCommitment) (map options_of (provider_calls (trace r)))
     = [Some "confirmed"].
Proof.
  intros t direct_call request_call fetch confirm Hkey Hfetch Hd Hr Hsig Hc d r.
  subst d r t direct_call request_call fetch confirm.
  unfold after, provider_calls, rpc_calls, transfer_to_self in *.
  cbn in *. rewrite Hkey. cbn. unfold confimationLvl.
  rewrite Hfetch. cbn. rewrite Hd, Hr. cbn.
  rewrite Hsig, Hc. cbn. rewrite <- !app_assoc. cbn.
  repeat split; reflexivity.
Qed.

Lemma request_path_matches_direct_path_example :
  logs (world (after willing_env
                 (BraveWalletSandbox.signAndSendTransaction sample_library)
                 (first_render sample_library)))
  = logs (world (after willing_env
                   (BraveWalletSandbox.signAndSendTransactionRequest sample_library)
                   (first_render sample_library))).
Proof.
  apply (request_path_matches_direct_path sample_library willing_env
           (first_render sample_library) sample_key
           "EkSnNWid2cvwEVnVx9aBqawnmiCNiDgp3gUdkDPTKN1N"
           sample_answer sample_answer);
    reflexivity.
Defined.

(** ** What is handed to the wallet *)

(** C5 fails on the first page.  When the account is connected and the
    three fetches succeed, the token-transfer handler of the first page
    hands the wallet an object that has the fetched block hash but no fee
    payer: it is the bare instruction, never wrapped in a transaction.  The
    handler of the second page, from the same answers to the same calls,
    hands over a transaction that has both. *)
Theorem first_page_token_transfer_has_no_fee_payer (lib : Library) (env : Env)
    (w : World) (key source destination : PublicKey) (h : Blockhash) :
  provider_publicKey env = Some key ->
  settles env 0 (getAssociatedTokenAddress token_mint key) = Fulfilled source ->
  settles env 1 (getAssociatedTokenAddress token_mint token_recipient)
  = Fulfilled destination ->
  settles env 2 (connection_getRecentBlockhash (connection w) "finalized")
  = Fulfilled h ->
  (exists payload,
      flat_map payloads_of
        (calls_of (trace (after env
                            (PhantomSandbox.signAndSendSplTokenTransaction lib) w)))
      = [payload]
      /\ payload_instructions payload
         = [createTransferInstruction source destination key 10000000]
      /\ payload_recentBlockhash payload = Some h
      /\ payload_feePayer payload = None
      /\ ~ carries_payer_and_blockhash payload)
  /\ (exists payload,
         flat_map payloads_of
           (calls_of (trace (after env
                               (BraveWalletSandbox.signAndSendSplTokenTransaction lib)
                               w)))
         = [payload]
         /\ payload_instructions payload
            = [createTransferInstruction source destination key 10000000]
         /\ payload_recentBlockhash payload = Some h
         /\ payload_feePayer payload = Some key
         /\ carries_payer_and_blockhash payload).
Proof.
  intros Hkey Hsrc Hdst Hh.
  unfold after, carries_payer_and_blockhash.
  split.
  - exists (BareInstruction
              (createTransferInstruction source destination key 10000000) h).
    cbn. rewrite Hkey. cbn. rewrite Hsrc. cbn. rewrite Hdst. cbn.
    rewrite Hh. cbn.
    split.
    + destruct (settles env 3 _) as [answer | err]; cbn.
      * destruct (settles env 4 _); reflexivity.
      * reflexivity.
    + repeat split; try reflexivity. intros [Hp _]. apply Hp. reflexivity.
  - exists (Legacy
              (set_recentBlockhash
                 (set_feePayer
                    (add new_Transaction
                       (createTransferInstruction source destination key 10000000))
                    key) h)).
    cbn. rewrite Hkey. cbn. rewrite Hsrc. cbn. rewrite Hdst. cbn.
    rewrite Hh. cbn.
    split.
    + destruct (settles env 3 _) as [answer | err]; cbn.
      * destruct (settles env 4 _); reflexivity.
      * reflexivity.
    + repeat split; try reflexivity; discriminate.
Qed.

Lemma first_page_token_transfer_has_no_fee_payer_example :
  exists payload,
    flat_map payloads_of
      (calls_of (trace (after willing_env
                          (PhantomSandbox.signAndSendSplTokenTransaction
                             sample_library)
                          (first_render sample_library))))
    = [payload]
    /\ payload_feePayer payload = None.
Proof.
  destruct (first_page_token_transfer_has_no_fee_payer sample_library willing_env
              (first_render sample_library) sample_key sample_key token_recipient
              "EkSnNWid2cvwEVnVx9aBqawnmiCNiDgp3gUdkDPTKN1N"
              eq_refl eq_refl eq_refl eq_refl)
    as [[payload (Hcalls & _ & _ & Hpayer & _)] _].
  exists payload. split; assumption.
Defined.

(** ** Rejected wallet calls *)

(** C3, as the spec states it, fails: when the wallet rejects the eager
    connection made as the page mounts, nothing is logged. *)
Lemma eager_connect_rejection_is_silent :
  ~ logged_once_as_error
      (trace (after refusing_env
                (PhantomSandbox.handler sample_library
                   (PhantomSandbox.mount_provider (Some phantom_wallet)))
                (first_render sample_library))).
Proof.
  unfold logged_once_as_error. cbn. intros [entry [H _]]. discriminate H.
Qed.

(** C3, amended.  On either page, when a wallet call made by a button
    handler rejects ([connect], [disconnect], [signTransaction],
    [signAllTransactions], [signMessage], [signAndSendTransaction] or
    [request]), the handler appends exactly one more entry, which starts
    with ["> [error] "], and the connected flag and the identity are what
    they were before the click.  Outside the buttons: a rejected eager
    connection at mount and a rejected disconnection at unmount are followed
    by nothing, and a rejected reconnection after an [accountChanged] event
    without identity is followed by exactly one entry, which starts with
    ["> [accountChanged] Failed to re-connect: "]. *)
Theorem rejected_wallet_call_in_a_handler (lib : Library) (env : Env) (w : World) :
  (forall op, PhantomSandbox.is_button op = true ->
      logged_once_as_error (trace (after env (PhantomSandbox.handler lib op) w))
      /\ session_kept w (after env (PhantomSandbox.handler lib op) w))
  /\ (forall op, BraveWalletSandbox.is_button op = true ->
         logged_once_as_error (trace (after env (BraveWalletSandbox.handler lib op) w))
         /\ session_kept w (after env (BraveWalletSandbox.handler lib op) w))
  /\ (forall provider,
         match after_rejection (trace (after env (useEffect_provider provider) w)) with
         | None => True
         | Some (_, rest) => rest = []
         end)
  /\ match after_rejection (trace (after env useEffect_provider_cleanup w)) with
     | None => True
     | Some (_, rest) => rest = []
     end
  /\ match after_rejection (trace (after env (on_accountChanged None) w)) with
     | None => True
     | Some (e, rest) =>
         rest = [Logged ("> [accountChanged] Failed to re-connect: "
                         ++ err_message e)%string]
     end.
Proof.
  split; [intros op; apply first_page_buttons_log_rejections |].
  split; [intros op; apply second_page_buttons_log_rejections |].
  unfold after. repeat split.
  - intros [provider |]; follow_run; auto.
  - follow_run; auto.
  - follow_run; auto.
Qed.

Lemma rejected_wallet_call_in_a_handler_example :
  after_rejection
    (trace (after refusing_env
              (BraveWalletSandbox.handler sample_library
                 BraveWalletSandbox.click_signAndSendTransactionRequest)
              (first_render sample_library)))
  = Some (user_rejected, [Logged "> [error] sendTransaction: {}"])
  /\ logged_once_as_error
       (trace (after refusing_env
                 (BraveWalletSandbox.handler sample_library
                    BraveWalletSandbox.click_signAndSendTransactionRequest)
                 (first_render sample_library))).
Proof.
  split; [reflexivity |].
  apply (rejected_wallet_call_in_a_handler sample_library refusing_env
           (first_render sample_library)).
  reflexivity.
Defined.

(** ** Signing a batch *)

(** C4, as the spec states it, fails: the page accepts a wallet that
    answers a batch of one payload with two signed transactions. *)
Lemma wallet_may_answer_one_with_two :
  ~ batch_answered_in_kind generous_env
      (trace (after generous_env
                (PhantomSandbox.signMultipleTransactions sample_library true)
                (first_render sample_library)))
      1.
Proof.
  intros H. destruct (H 1 2) as [_ E]; [| discriminate E].
  cbn. left. reflexivity.
Qed.

(** Such an answer is taken as it is: both signed transactions are sent and
    no error is logged. *)
Example generous_answer_is_sent_whole :
  let m := after generous_env
             (PhantomSandbox.signMultipleTransactions sample_library true)
             (first_render sample_library) in
  length (filter (fun c => match c with
                           | connection_sendRawTransaction _ _ => true
                           | _ => false
                           end) (calls_of (trace m))) = 2
  /\ logs (world m)
     = ["> Getting recent blockhash"; "> Getting recent blockhash";
        "> blockhash: EkSnNWid2cvwEVnVx9aBqawnmiCNiDgp3gUdkDPTKN1N = finalized";
        "> blockhash: EkSnNWid2cvwEVnVx9aBqawnmiCNiDgp3gUdkDPTKN1N = finalized";
        "> signMultipleTransactions txns: {}";
        "> sent raw txns: {}"].
Proof. split; reflexivity. Qed.

(** C4, amended.  In [signMultipleTransactions], on either page: when both
    builders return a payload, [signAllTransactions] is invoked exactly
    once, with the list of exactly one payload, the first builder's, when
    [onlyFirst] is set, and with the list of exactly two payloads, the first
    builder's before the second's, otherwise; in every other case it is not
    invoked.  For legacy transfers the first payload carries the block hash
    of the first fetch and the second that of the second fetch, whichever
    fetch is answered first.  Nothing is proved of the number or order of
    the signed transactions that come back: they are the wallet's. *)
Theorem batch_is_asked_in_builder_order (lib : Library) (env : Env) (w : World)
    (onlyFirst : bool) :
  match result env (all2 createTransferTransaction createTransferTransaction) w with
  | Fulfilled (Some transaction1, Some transaction2) =>
      batches (trace (after env
                        (PhantomSandbox.signMultipleTransactions lib onlyFirst) w))
      = [if onlyFirst
         then [Legacy transaction1]
         else [Legacy transaction1; Legacy transaction2]]
  | _ =>
      batches (trace (after env
                        (PhantomSandbox.signMultipleTransactions lib onlyFirst) w))
      = []
  end
  /\ (forall v0 lookupTable,
         match result env (all2 (BraveWalletSandbox.build v0 lookupTable)
                             (BraveWalletSandbox.build v0 lookupTable)) w with
         | Fulfilled (Some transaction1, Some transaction2) =>
             batches (trace (after env
                               (BraveWalletSandbox.signMultipleTransactions lib
                                  onlyFirst v0 lookupTable) w))
             = [if onlyFirst
                then [transaction1]
                else [transaction1; transaction2]]
         | _ =>
             batches (trace (after env
                               (BraveWalletSandbox.signMultipleTransactions lib
                                  onlyFirst v0 lookupTable) w))
             = []
         end)
  /\ (forall key h1 h2,
         provider_publicKey env = Some key ->
         settles env 0 (connection_getRecentBlockhash (connection w) "finalized")
         = Fulfilled h1 ->
         settles env 1 (connection_getRecentBlockhash (connection w) "finalized")
         = Fulfilled h2 ->
         result env (all2 createTransferTransaction createTransferTransaction) w
         = Fulfilled (Some (transfer_to_self key h1), Some (transfer_to_self key h2))).
Proof.
  unfold after, result. repeat split.
  - destruct onlyFirst; follow_run; close_batches.
  - intros v0 lookupTable.
    destruct onlyFirst, v0, lookupTable; follow_run; close_batches.
  - intros key h1 h2 Hkey H1 H2. cbn.
    repeat (first [ rewrite Hkey | rewrite H1 | rewrite H2 | ask_env ];
            cbn; unfold confimationLvl).
    all: reflexivity.
Qed.

Lemma batch_is_asked_in_builder_order_example :
  batches (trace (after willing_env
                    (PhantomSandbox.signMultipleTransactions sample_library false)
                    (first_render sample_library)))
  = [[Legacy (transfer_to_self sample_key
                "EkSnNWid2cvwEVnVx9aBqawnmiCNiDgp3gUdkDPTKN1N");
      Legacy (transfer_to_self sample_key
                "EkSnNWid2cvwEVnVx9aBqawnmiCNiDgp3gUdkDPTKN1N")]].
Proof.
  exact (proj1 (batch_is_asked_in_builder_order sample_library willing_env
                  (first_render sample_library) false)).
Defined.

(** * Further properties of the pages *)

(** ** What reaches the wallet and the node *)

(** X1. On the second page, whatever an operation hands to the wallet for
    signing has the account the wallet reports as fee payer and has a block
    hash; on the first page the same holds for every operation but the
    token-transfer button. *)
Theorem payloads_are_paid_by_the_reported_account (lib : Library) (env : Env)
    (w : World) :
  (forall op, op <> PhantomSandbox.click_signAndSendSplTokenTransaction ->
      Forall (funded_by env)
        (handed (trace (after env (PhantomSandbox.handler lib op) w))))
  /\ (forall op,
         Forall (funded_by env)
           (handed (trace (after env (BraveWalletSandbox.handler lib op) w)))).
Proof.
  unfold after, funded_by. split.
  - intros op Hop. each_operation op; try congruence; clear Hop;
      follow_run_eq; close_handed env.
  - intros op. each_operation op; follow_run_eq; close_handed env.
Qed.

(** X2. On either page, the raw transactions an operation sends to the node
    are the serializations of the transactions the wallet returned from
    [signTransaction] and [signAllTransactions], each once and in the order
    returned: nothing unsigned is sent, nothing signed is held back. *)
Theorem node_receives_what_the_wallet_signed (lib : Library) (env : Env)
    (w : World) :
  (forall op,
      let m := after env (PhantomSandbox.handler lib op) w in
      sent (trace m) = map (serialize lib) (signed_by_wallet env (trace m)))
  /\ (forall op,
         let m := after env (BraveWalletSandbox.handler lib op) w in
         sent (trace m) = map (serialize lib) (signed_by_wallet env (trace m))).
Proof.
  unfold after.
  split; intros op; each_operation op; follow_run_eq; close_sent env.
Qed.

(** X3. On either page, every call an operation makes to the node goes
    through the connection the page holds when the operation starts. *)
Theorem node_calls_use_the_current_connection (lib : Library) (env : Env)
    (w : World) :
  (forall op,
      Forall (talks_to (connection w))
        (calls_of (trace (after env (PhantomSandbox.handler lib op) w))))
  /\ (forall op,
         Forall (talks_to (connection w))
           (calls_of (trace (after env (BraveWalletSandbox.handler lib op) w)))).
Proof.
  unfold after.
  split; intros op; each_operation op; follow_run_eq; close_talks env.
Qed.

(** X4. On either page, once a call of an operation has been rejected, by
    the wallet or by the node, the operation asks the wallet nothing
    more. *)
Theorem wallet_is_left_alone_after_a_failure (lib : Library) (env : Env)
    (w : World) :
  (forall op,
      no_wallet_call_after_failure
        (trace (after env (PhantomSandbox.handler lib op) w)))
  /\ (forall op,
         no_wallet_call_after_failure
           (trace (after env (BraveWalletSandbox.handler lib op) w))).
Proof.
  unfold after.
  split; intros op; each_operation op; follow_run_eq; close_after_failure env.
Qed.

(** X5. On either page, an operation calls the wallet at most once. *)
Theorem one_wallet_call_per_operation (lib : Library) (env : Env) (w : World) :
  (forall op,
      length (provider_calls
                (trace (after env (PhantomSandbox.handler lib op) w))) <= 1)
  /\ (forall op,
         length (provider_calls
                   (trace (after env (BraveWalletSandbox.handler lib op) w))) <= 1).
Proof.
  unfold after.
  split; intros op; each_operation op; follow_run_eq; close_once env.
Qed.

(** ** The network context *)

(** X6. If the connection is the one of the selected cluster, it still is
    after any operation of either page. *)
Theorem operations_keep_the_network_consistent (lib : Library) (env : Env)
    (w : World) :
  network_consistent lib w ->
  (forall op, network_consistent lib
                (world (after env (PhantomSandbox.handler lib op) w)))
  /\ (forall op, network_consistent lib
                   (world (after env (BraveWalletSandbox.handler lib op) w))).
Proof.
  unfold network_consistent, after. intros Hw.
  split; intros op; each_operation op; follow_run_eq; close_network env.
Qed.

Lemma operations_keep_the_network_consistent_example :
  network_consistent sample_library (first_render sample_library)
  /\ network_consistent sample_library
       (world (after willing_env
                 (BraveWalletSandbox.handler sample_library
                    (BraveWalletSandbox.select_cluster mainnet_beta))
                 (first_render sample_library))).
Proof.
  split; [reflexivity |].
  apply (operations_keep_the_network_consistent sample_library willing_env
           (first_render sample_library)).
  reflexivity.
Defined.

(** ** Connecting and disconnecting from a button *)

(** X7. Each connect or disconnect button of either page makes exactly one
    wallet call and no call to the node.  When the wallet grants it, the
    page is exactly as before the click, log included: the session changes
    only when the wallet pushes an event.  When the wallet rejects it, the
    log has one more entry. *)
Theorem session_buttons_change_nothing_when_granted (lib : Library) (env : Env)
    (w : World) :
  (forall op, first_page_session_button op = true ->
      let m := after env (PhantomSandbox.handler lib op) w in
      length (provider_calls (trace m)) = 1
      /\ rpc_calls (trace m) = []
      /\ match after_rejection (trace m) with
         | None => world m = w
         | Some _ => length (logs (world m)) = S (length (logs w))
         end)
  /\ (forall op, second_page_session_button op = true ->
      let m := after env (BraveWalletSandbox.handler lib op) w in
      length (provider_calls (trace m)) = 1
      /\ rpc_calls (trace m) = []
      /\ match after_rejection (trace m) with
         | None => world m = w
         | Some _ => length (logs (world m)) = S (length (logs w))
         end).
Proof.
  unfold after.
  split; intros op Hb; destruct op; try discriminate Hb; clear Hb;
    follow_run_eq; rewrite ?length_app; cbn; repeat split; lia.
Qed.

(** ** Signing without sending, with no account *)

(** X8. When the wallet reports no account, the sign-only handlers, which
    do not test what the builder returned, go on: [signSingleTransction]
    and [signSingleTransaction] call [signTransaction] with [undefined];
    the request variants fail on reading a property of [undefined] before
    any call and log one error entry; the batch handlers, which do test both
    payloads, do nothing at all. *)
Theorem sign_only_without_account (lib : Library) (env : Env) (w : World) :
  provider_publicKey env = None ->
  (exists rest,
      calls_of (trace (after env (PhantomSandbox.signSingleTransction lib) w))
      = provider_signTransaction None :: rest)
  /\ (forall v0 lookupTable, exists rest,
         calls_of (trace (after env
                            (BraveWalletSandbox.signSingleTransaction lib v0 lookupTable)
                            w))
         = provider_signTransaction None :: rest)
  /\ after env (PhantomSandbox.signSingleTransctionRequest lib) w
     = step_log ("[error] signSingleTransction: "
                 ++ JSON_stringify lib (js_error (undefined_has_no "serializeMessage")))
         (start w)
  /\ (forall v0,
         after env (BraveWalletSandbox.signSingleTransactionRequest lib v0) w
         = step_log ("[error] signSingleTransaction: "
                     ++ JSON_stringify lib
                          (js_error (undefined_has_no
                                       (if v0 then "message" else "serializeMessage"))))
             (start w))
  /\ (forall onlyFirst,
         run env (PhantomSandbox.signMultipleTransactions lib onlyFirst) (start w)
         = (Fulfilled tt, start w))
  /\ (forall onlyFirst v0 lookupTable,
         run env (BraveWalletSandbox.signMultipleTransactions lib onlyFirst v0
                    lookupTable) (start w)
         = (Fulfilled tt, start w))
  /\ (forall onlyFirst v0,
         run env (BraveWalletSandbox.signMultipleTransactionsRequest lib onlyFirst v0)
           (start w)
         = (Fulfilled tt, start w)).
Proof.
  intros Hnone. unfold after. repeat split.
  - cbn. rewrite Hnone. follow_run; eexists; reflexivity.
  - intros [|] [|]; cbn; rewrite Hnone; follow_run; eexists; reflexivity.
  - cbn. rewrite Hnone. reflexivity.
  - intros [|]; cbn; rewrite Hnone; reflexivity.
  - intros [|]; cbn; rewrite Hnone; cbn; rewrite Hnone; reflexivity.
  - intros [|] [|] [|]; cbn; rewrite Hnone; cbn; rewrite Hnone; reflexivity.
  - intros [|] [|]; cbn; rewrite Hnone; cbn; rewrite Hnone; reflexivity.
Qed.

Lemma sign_only_without_account_example :
  provider_publicKey locked_env = None
  /\ logs (world (after locked_env
                    (BraveWalletSandbox.signSingleTransactionRequest
                       sample_library true)
                    (first_render sample_library)))
     = ["> [error] signSingleTransaction: {}"].
Proof.
  split; [reflexivity |].
  rewrite (proj1 (proj2 (proj2 (proj2
             (sign_only_without_account sample_library locked_env
                (first_render sample_library) eq_refl)))) true).
  reflexivity.
Defined.

(** ** Rendering without the wallet *)

(** X9. Rendering never changes what is injected in the window, so every
    render ends as the first one does.  When [getProvider] returns nothing
    (no [solana] property, or one that holds neither [undefined] nor [null]
    and is not flagged as Phantom), [n] renders open [n] tabs on
    [https://phantom.app/]; when it returns the wallet, or throws because
    the property holds [undefined] or [null], no render opens any. *)
Theorem each_render_without_phantom_opens_a_tab (win : Window) (n : nat) :
  solana (Nat.iter n render win) = solana win
  /\ fst (getProvider (Nat.iter n render win)) = fst (getProvider win)
  /\ opened (Nat.iter n render win)
     = match fst (getProvider win) with
       | Returned None =>
           opened win ++ repeat ("https://phantom.app/", "_blank") n
       | Returned (Some _) | Thrown _ => opened win
       end.
Proof.
  assert (Hkeeps : forall w, solana (render w) = solana w).
  { intros [[[| | | wallet] |] tabs]; unfold render, getProvider; cbn;
      try reflexivity.
    all: destruct (isPhantom wallet); reflexivity. }
  assert (Hsame : forall w1 w2,
             solana w1 = solana w2 -> fst (getProvider w1) = fst (getProvider w2)).
  { intros [s1 tabs1] [s2 tabs2] H. cbn in H. subst s2.
    unfold getProvider; cbn.
    destruct s1 as [[| | | wallet] |]; cbn; try reflexivity.
    destruct (isPhantom wallet); reflexivity. }
  assert (Hopens : forall w,
             opened (render w)
             = match fst (getProvider w) with
               | Returned None => opened w ++ [("https://phantom.app/", "_blank")]
               | Returned (Some _) | Thrown _ => opened w
               end).
  { intros [[[| | | wallet] |] tabs]; unfold render, getProvider; cbn;
      try reflexivity.
    all: destruct (isPhantom wallet); reflexivity. }
  induction n as [| n (IHs & IHf & IHo)]; [cbn | rewrite Nat.iter_succ].
  - repeat split. destruct (fst (getProvider win)) as [[wallet |] | e];
      [reflexivity | | reflexivity].
    rewrite app_nil_r. reflexivity.
  - rewrite Hkeeps, Hopens, IHf, IHo.
    split; [exact IHs |].
    split; [apply Hsame; rewrite Hkeeps; exact IHs |].
    destruct (fst (getProvider win)) as [[wallet |] | e]; try reflexivity.
    rewrite <- app_assoc. f_equal. symmetry. apply repeat_cons.
Qed.

(** ** A batch whose first payload cannot be built *)

(** X10. In [signMultipleTransactions] on legacy transfers, when the first
    block hash fetch is rejected and the second is answered, the wallet is
    not called and the error is logged once; the second builder still logs
    its block hash, before the error entry if its answer came first and
    after it otherwise. *)
Theorem batch_build_partial_failure (lib : Library) (env : Env) (w : World)
    (key : PublicKey) (e : Err) (h : Blockhash) (onlyFirst : bool) :
  provider_publicKey env = Some key ->
  settles env 0 (connection_getRecentBlockhash (connection w) "finalized")
  = Rejected e ->
  settles env 1 (connection_getRecentBlockhash (connection w) "finalized")
  = Fulfilled h ->
  let failure := ("> [error] signMultipleTransactions: "
                  ++ JSON_stringify lib (js_error e))%string in
  let fetched := ("> blockhash: " ++ h ++ " = finalized")%string in
  let expected :=
    logs w ++ ["> Getting recent blockhash"; "> Getting recent blockhash"]
    ++ (if arrives_first env 0 1 then [failure; fetched] else [fetched; failure]) in
  (let m := after env (PhantomSandbox.signMultipleTransactions lib onlyFirst) w in
   logs (world m) = expected /\ provider_calls (trace m) = [])
  /\ (let m := after env (BraveWalletSandbox.signMultipleTransactions lib onlyFirst
                            false false) w in
      logs (world m) = expected /\ provider_calls (trace m) = []).
Proof.
  intros Hkey H0 H1 failure fetched expected. subst failure fetched expected.
  unfold after, provider_calls.
  split; destruct onlyFirst; cbn;
    repeat (first [ rewrite Hkey | rewrite H0 | rewrite H1 | ask_env ];
            cbn; unfold confimationLvl);
    rewrite <- ?app_assoc; split; reflexivity.
Qed.

Lemma batch_build_partial_failure_example :
  logs (world (after flaky_env
                 (PhantomSandbox.signMultipleTransactions sample_library false)
                 (first_render sample_library)))
  = ["> Getting recent blockhash"; "> Getting recent blockhash";
     "> [error] signMultipleTransactions: {}";
     "> blockhash: EkSnNWid2cvwEVnVx9aBqawnmiCNiDgp3gUdkDPTKN1N = finalized"].
Proof.
  apply (batch_build_partial_failure sample_library flaky_env
           (first_render sample_library) sample_key network_down
           "EkSnNWid2cvwEVnVx9aBqawnmiCNiDgp3gUdkDPTKN1N" false);
    reflexivity.
Defined.
